(** * TNI-R: delta-v engine and mission-phase simulator

    A shallow embedding of the numeric core of the repository:
    - [tni_deltav_calculations.py]: [OrbitParams], [DeltaVBreakdown] and the
      [TNIRCalculator] methods;
    - [tni_performace.py]: [calculate_propellant_cost_savings];
    - [tni_simulator.py]: the state of [TNISimulator], its
      [_update_simulation_state] and the events of its [run] loop.

    Number model.  Python floats are read as real numbers: [+], [-], [*], [/],
    [math.sqrt], [math.exp], [math.log10], [math.sin], [math.cos] are the
    operations of [R], so rounding (to the nearest float, to a subnormal or
    to an infinity) is not part of the model.  What is part of the model is
    where the Python operations raise: [/] raises [ZeroDivisionError] on a
    zero divisor, [math.sqrt] raises [ValueError] on a negative argument and
    [math.log10] on a non-positive one, and [math.exp] raises
    [OverflowError] above the largest exponent a float result allows; below
    the smallest one it returns [0.0], which a later division turns into a
    [ZeroDivisionError].  Fallible functions therefore return a [Res].  In the
    two simulators the argument of [math.exp] is confined to a few units
    below zero by the branch that calls it, and the real exponential is used
    directly (see [exp_in_range]). *)

From Stdlib Require Import Reals Lra Lia ZArith List String Bool.
Import ListNotations.
Open Scope R_scope.

(** ** Python results and the operations that can raise *)

Inductive PyError : Type :=
| ZeroDivisionError
| ValueError
| OverflowError.

Inductive Res (A : Type) : Type :=
| Ok (a : A)
| Err (e : PyError).

Arguments Ok {A} a.
Arguments Err {A} e.

Definition bind {A B : Type} (c : Res A) (k : A -> Res B) : Res B :=
  match c with
  | Ok a => k a
  | Err e => Err e
  end.

Notation "x <- c ;; k" := (bind c (fun x => k))
  (at level 61, c at next level, right associativity).
Notation "' p <- c ;; k" := (bind c (fun x => let p := x in k))
  (at level 61, p pattern, c at next level, right associativity).

Module Py.

(** [x / y] on floats. *)
Definition div (x y : R) : Res R :=
  if Req_dec_T y 0 then Err ZeroDivisionError else Ok (x / y).

(** [math.sqrt(x)]. *)
Definition sqrt (x : R) : Res R :=
  if Rlt_dec x 0 then Err ValueError else Ok (R_sqrt.sqrt x).

(** [math.log10(x)]. *)
Definition log10 (x : R) : Res R :=
  if Rle_dec x 0 then Err ValueError else Ok (ln x / ln 10).

(** [math.radians(x)]. *)
Definition radians (x : R) : R := x * (PI / 180).

(** [max(a, b)]: the first argument unless the second is strictly larger. *)
Definition max (a b : R) : R := if Rlt_dec a b then b else a.

(** [min(a, b)]: the first argument unless the second is strictly smaller. *)
Definition min (a b : R) : R := if Rlt_dec b a then b else a.

(** [int(x)]: truncation towards zero. *)
Definition int (x : R) : Z :=
  if Rle_dec 0 x then Int_part x else (- Int_part (- x))%Z.

(** [sum(l)]: left fold from [0]. *)
Definition sum (l : list R) : R := fold_left Rplus l 0.

(** The largest float at which [math.exp] does not overflow and the
    smallest at which it does not return [0.0] (about [1024 ln 2] and
    [-1075 ln 2]). *)
Definition EXP_OVERFLOW : R := 709.782712893384.
Definition EXP_UNDERFLOW : R := -745.1332191019411.

(** The largest finite float, [sys.float_info.max]. *)
Definition FLOAT_MAX : R := 1.7976931348623157e308.

(** [math.exp(x)] for a finite float [x]. *)
Definition exp (x : R) : Res R :=
  if Rlt_dec EXP_OVERFLOW x then Err OverflowError
  else if Rlt_dec x EXP_UNDERFLOW then Ok 0
  else Ok (Rtrigo_def.exp x).

End Py.

(** ** [tni_deltav_calculations.py] *)

(** *** [OrbitParams] *)

Record OrbitParams : Type := mkOrbitParams {
  altitude_km : R;
  inclination_deg : R
}.

(** [OrbitParams(altitude_km=a)]: the inclination defaults to [0.0]. *)
Definition orbit_at (a : R) : OrbitParams := mkOrbitParams a 0.

Definition radius_km (o : OrbitParams) : R := 6371 + altitude_km o.

Definition velocity_ms (o : OrbitParams) : Res R :=
  let mu := 398600.4418 in
  q <- Py.div mu (radius_km o) ;;
  s <- Py.sqrt q ;;
  Ok (s * 1000).

(** *** [DeltaVBreakdown]

    A plain dataclass: seven stored fields, all of them constructor arguments
    and all of them assignable; [total] is the only derived attribute.  The
    fields [hohmann_transfer] and [plane_change] carry a [_dv] suffix here,
    their names being those of two calculator methods. *)

Record DeltaVBreakdown : Type := mkDeltaVBreakdown {
  search_acquisition : R;
  hohmann_transfer_dv : R;
  plane_change_dv : R;
  approach_corrections : R;
  final_approach : R;
  docking_maneuver : R;
  safety_margin : R
}.

Definition total (b : DeltaVBreakdown) : R :=
  Py.sum [ search_acquisition b; hohmann_transfer_dv b; plane_change_dv b;
           approach_corrections b; final_approach b; docking_maneuver b;
           safety_margin b ].

(** Attribute assignment [b.search_acquisition = v]: the dataclass has no
    [__setattr__] hook, so only the named field changes. *)
Definition set_search_acquisition (v : R) (b : DeltaVBreakdown) : DeltaVBreakdown :=
  mkDeltaVBreakdown v (hohmann_transfer_dv b) (plane_change_dv b)
    (approach_corrections b) (final_approach b) (docking_maneuver b)
    (safety_margin b).

(** The six components other than the safety margin, added in the order in
    which both rendezvous functions add them. *)
Definition planned_dv (b : DeltaVBreakdown) : R :=
  search_acquisition b + hohmann_transfer_dv b + plane_change_dv b +
  approach_corrections b + final_approach b + docking_maneuver b.

(** *** [TNIRCalculator] *)

Definition MU_EARTH : R := 398600.4418.
Definition EARTH_RADIUS : R := 6371.0.

Definition hohmann_transfer (r1_km r2_km : R) : Res (R * R) :=
  (* first burn *)
  q1 <- Py.div MU_EARTH r1_km ;;
  v1 <- Py.sqrt q1 ;;
  a1 <- Py.div 2 r1_km ;;
  b1 <- Py.div 2 (r1_km + r2_km) ;;
  v_transfer_1 <- Py.sqrt (MU_EARTH * (a1 - b1)) ;;
  let dv1 := Rabs (v_transfer_1 - v1) * 1000 in
  (* second burn *)
  q2 <- Py.div MU_EARTH r2_km ;;
  v2 <- Py.sqrt q2 ;;
  a2 <- Py.div 2 r2_km ;;
  b2 <- Py.div 2 (r1_km + r2_km) ;;
  v_transfer_2 <- Py.sqrt (MU_EARTH * (a2 - b2)) ;;
  let dv2 := Rabs (v2 - v_transfer_2) * 1000 in
  Ok (dv1, dv2).

Definition plane_change (velocity : R) (angle_deg : R) : R :=
  let angle_rad := Py.radians angle_deg in
  2 * velocity * sin (angle_rad / 2).

Definition phasing_maneuver (r_km : R) (phase_angle_deg : R) : Res R :=
  let delta_h := 5 in
  let r1 := r_km in
  let r2 := r_km - delta_h in
  '(dv_down, _) <- hohmann_transfer r1 r2 ;;
  '(dv_up, _) <- hohmann_transfer r2 r1 ;;
  Ok (dv_down + dv_up).

Definition calculate_standard_rendezvous (chaser target : OrbitParams)
    (separation_km : R) (inclination_diff_deg : R) : Res DeltaVBreakdown :=
  let search_dv := 8.0 + (separation_km / 50) * 2.0 in
  '(dv1, dv2) <- hohmann_transfer (radius_km chaser) (radius_km target) ;;
  let hohmann_dv := dv1 + dv2 in
  pc <- (if Rlt_dec 0 inclination_diff_deg
         then v <- velocity_ms target ;; Ok (plane_change v inclination_diff_deg)
         else Ok 0.0) ;;
  let approach := 6.0 + (separation_km / 100) * 4.0 in
  l <- Py.log10 (Py.max 1 separation_km) ;;
  let final := 4.0 + 0.5 * l in
  let docking := 3.0 in
  let safety := (search_dv + hohmann_dv + pc + approach + final + docking) * 0.22 in
  Ok (mkDeltaVBreakdown search_dv hohmann_dv pc approach final docking safety).

Definition calculate_tni_rendezvous (chaser target : OrbitParams)
    (separation_km : R) (inclination_diff_deg : R) : Res DeltaVBreakdown :=
  let search_dv := 1.5 in
  '(dv1, dv2) <- hohmann_transfer (radius_km chaser) (radius_km target) ;;
  let hohmann_dv := (dv1 + dv2) * 0.7 in
  pc <- (if Rlt_dec 0 inclination_diff_deg
         then v <- velocity_ms target ;;
              Ok (plane_change v inclination_diff_deg * 0.85)
         else Ok 0.0) ;;
  let approach := 2.0 + (separation_km / 200) * 1.0 in
  l <- Py.log10 (Py.max 1 separation_km) ;;
  let final := 1.5 + 0.2 * l in
  let docking := 1.2 in
  let safety := (search_dv + hohmann_dv + pc + approach + final + docking) * 0.09 in
  Ok (mkDeltaVBreakdown search_dv hohmann_dv pc approach final docking safety).

Definition calculate_propellant_mass (dv_ms dry_mass_kg isp_s : R) : Res R :=
  let g0 := 9.80665 in
  let ve := isp_s * g0 in
  x <- Py.div (- dv_ms) ve ;;
  mass_ratio <- Py.exp x ;;
  let propellant_fraction := 1 - mass_ratio in
  m_initial <- Py.div dry_mass_kg mass_ratio ;;
  let propellant_mass := m_initial - dry_mass_kg in
  Ok propellant_mass.

(** ** [tni_performace.py] *)

Definition calculate_propellant_cost_savings (dv_saved_mps isp dry_mass_kg : R)
    : Res (R * R) :=
  let g0 := 9.81 in
  let ve := isp * g0 in
  x <- Py.div dv_saved_mps ve ;;
  e <- Py.exp x ;;
  let mass_ratio_change := e - 1 in
  let propellant_saved_kg := dry_mass_kg * mass_ratio_change in
  let cost_saved_usd := propellant_saved_kg * 0.50 in
  Ok (propellant_saved_kg, cost_saved_usd).

(** ** [tni_simulator.py] *)

Module Sim.

(** The values taken by [current_phase] (a string in the source). *)
Inductive Phase : Type :=
| PRE_LAUNCH
| ASCENT
| TNI_ACTIVATION
| ORBITAL_INSERTION
| TNI_DISCONNECT
| NOMINAL_ORBIT.

Definition phase_label (p : Phase) : string :=
  match p with
  | PRE_LAUNCH => "PRE-LAUNCH"
  | ASCENT => "ASCENT"
  | TNI_ACTIVATION => "TNI ACTIVATION"
  | ORBITAL_INSERTION => "ORBITAL INSERTION"
  | TNI_DISCONNECT => "TNI DISCONNECT"
  | NOMINAL_ORBIT => "NOMINAL ORBIT"
  end.

(** A window bound: a float or [float('inf')]. *)
Inductive Bound : Type :=
| Fin (x : R)
| Inf.

(** [t < b] for a float [t]. *)
Definition lt_bound (t : R) (b : Bound) : bool :=
  match b with
  | Fin x => if Rlt_dec t x then true else false
  | Inf => true
  end.

(** [TIME_PHASES]; [PRE_LAUNCH] is not a key of the dictionary. *)
Definition TIME_PHASES (p : Phase) : option (Bound * Bound) :=
  match p with
  | PRE_LAUNCH => None
  | ASCENT => Some (Fin 0, Fin 150)
  | TNI_ACTIVATION => Some (Fin 150, Fin 170)
  | ORBITAL_INSERTION => Some (Fin 170, Fin 290)
  | TNI_DISCONNECT => Some (Fin 290, Fin 310)
  | NOMINAL_ORBIT => Some (Fin 310, Inf)
  end.

(** [TIME_PHASES[p][1]] for the four keys the update reads. *)
Definition phase_end (p : Phase) : Bound :=
  match TIME_PHASES p with
  | Some (_, e) => e
  | None => Inf
  end.

Definition EARTH_RADIUS_KM : R := 6371.
Definition STARLINK_ALT_KM : R := 550.

Definition SPEED_MULTIPLIERS : list R := [0.25; 0.5; 1.0; 2.0; 4.0].

Record Satellite : Type := mkSatellite {
  sat_id : nat;
  sat_x : R;
  sat_y : R;
  sat_angle : R;
  sat_omega : R
}.

Record Vehicle : Type := mkVehicle {
  veh_x : R;
  veh_y : R;
  veh_alt : R;
  veh_angle : R
}.

(** The simulation state of [TNISimulator] (window, fonts and video
    recording are left out). *)
Record TNISimulator : Type := mkSim {
  time_s : R;
  is_running : bool;
  current_phase : Phase;
  altitude_km : R;
  position_error_m : R;
  velocity_error_mps : R;
  dv_saved_mps : R;
  active_links : Z;
  is_tni_active : bool;
  speed_index : Z;
  current_speed_multiplier : R;
  satellites : list Satellite;
  vehicle : Vehicle
}.

Definition _init_satellites : list Satellite :=
  map (fun i =>
         let angle := (INR i / 18) * 2 * PI + INR (i mod 2) * 0.3 in
         let x := (EARTH_RADIUS_KM + STARLINK_ALT_KM) * cos angle in
         let y := (EARTH_RADIUS_KM + STARLINK_ALT_KM) * sin angle in
         mkSatellite i x y angle 0.0011)
      (seq 0 18).

(** [__init__] (the window size plays no part in the state kept here). *)
Definition __init__ : TNISimulator :=
  {| time_s := 0.0;
     is_running := false;
     current_phase := PRE_LAUNCH;
     altitude_km := 0.0;
     position_error_m := 25.0;
     velocity_error_mps := 0.15;
     dv_saved_mps := 0.0;
     active_links := 0;
     is_tni_active := false;
     speed_index := 2;
     current_speed_multiplier := nth 2 SPEED_MULTIPLIERS 0;
     satellites := _init_satellites;
     vehicle := mkVehicle 0.0 0.0 0.0 0.0 |}.

(** The attributes the phase dispatch may assign. *)
Record PhaseVars : Type := mkPhaseVars {
  pv_phase : Phase;
  pv_altitude : R;
  pv_tni_active : bool;
  pv_links : Z;
  pv_pos_err : R;
  pv_vel_err : R;
  pv_dv_saved : R;
  pv_running : bool
}.

(** The [if]/[elif] chain of [_update_simulation_state] at the new time
    [t]; [rnd1] and [rnd2] are the two values [random.random()] returns in
    the orbital-insertion branch.  A field a branch does not assign keeps
    the value it has in [s]. *)
Definition dispatch (t rnd1 rnd2 : R) (s : TNISimulator) : PhaseVars :=
  if lt_bound t (phase_end ASCENT) then
    mkPhaseVars ASCENT ((t / 150) * 200) false 0 25.0 0.15
      (dv_saved_mps s) (is_running s)
  else if lt_bound t (phase_end TNI_ACTIVATION) then
    let tni_time := t - 150 in
    mkPhaseVars TNI_ACTIVATION (altitude_km s) true
      (Z.min 10 (Py.int ((t - 150) * 0.5)))
      (Py.max 0.03 (20 * exp (- tni_time / 9)))
      (Py.max 0.003 (0.15 * exp (- tni_time / 7)))
      (dv_saved_mps s) (is_running s)
  else if lt_bound t (phase_end ORBITAL_INSERTION) then
    let pos := 0.03 + rnd1 * 0.02 in
    mkPhaseVars ORBITAL_INSERTION (200 + (t - 170) * 0.91)
      (is_tni_active s) (active_links s)
      pos (0.002 + rnd2 * 0.001) (45 * (1 - pos / 25)) (is_running s)
  else if lt_bound t (phase_end TNI_DISCONNECT) then
    mkPhaseVars TNI_DISCONNECT (altitude_km s) (is_tni_active s)
      (Z.max 0 (10 - Py.int ((t - 290) * 0.5)))
      (position_error_m s) (velocity_error_mps s) (dv_saved_mps s)
      (is_running s)
  else
    mkPhaseVars NOMINAL_ORBIT (altitude_km s) (is_tni_active s)
      (active_links s) (position_error_m s) (velocity_error_mps s)
      (dv_saved_mps s) false.

Definition _update_simulation_state (dt rnd1 rnd2 : R) (s : TNISimulator)
    : TNISimulator :=
  if negb (is_running s) then s
  else
    let effective_dt := dt * current_speed_multiplier s in
    let t := time_s s + effective_dt in
    let pv := dispatch t rnd1 rnd2 s in
    let r := EARTH_RADIUS_KM + pv_altitude pv in
    let vehicle_angle := t * 0.02 in
    {| time_s := t;
       is_running := pv_running pv;
       current_phase := pv_phase pv;
       altitude_km := pv_altitude pv;
       position_error_m := pv_pos_err pv;
       velocity_error_mps := pv_vel_err pv;
       dv_saved_mps := pv_dv_saved pv;
       active_links := pv_links pv;
       is_tni_active := pv_tni_active pv;
       speed_index := speed_index s;
       current_speed_multiplier := current_speed_multiplier s;
       satellites :=
         map (fun sat =>
                let angle := sat_angle sat + sat_omega sat * effective_dt in
                let rs := EARTH_RADIUS_KM + STARLINK_ALT_KM in
                mkSatellite (sat_id sat) (rs * cos angle) (rs * sin angle)
                  angle (sat_omega sat))
             (satellites s);
       vehicle := mkVehicle (r * cos vehicle_angle) (r * sin vehicle_angle)
                    (pv_altitude pv) vehicle_angle |}.

Definition set_running (b : bool) (s : TNISimulator) : TNISimulator :=
  mkSim (time_s s) b (current_phase s) (altitude_km s) (position_error_m s)
    (velocity_error_mps s) (dv_saved_mps s) (active_links s)
    (is_tni_active s) (speed_index s) (current_speed_multiplier s)
    (satellites s) (vehicle s).

(** [_handle_speed_change]. *)
Definition _handle_speed_change (direction : Z) (s : TNISimulator)
    : TNISimulator :=
  let new_index := (speed_index s + direction)%Z in
  if ((0 <=? new_index) && (new_index <? Z.of_nat (List.length SPEED_MULTIPLIERS)))%Z
  then
    mkSim (time_s s) (is_running s) (current_phase s) (altitude_km s)
      (position_error_m s) (velocity_error_mps s) (dv_saved_mps s)
      (active_links s) (is_tni_active s) new_index
      (nth (Z.to_nat new_index) SPEED_MULTIPLIERS 0)
      (satellites s) (vehicle s)
  else s.

(** What the [run] loop does to the state: the start/pause toggle (button
    or space bar), the reset key, the two speed keys, and the update of a
    frame, whose [dt] is a clock reading and whose random draws lie in
    [[0, 1)]. *)
Inductive step : TNISimulator -> TNISimulator -> Prop :=
| step_toggle s :
    step s (set_running (negb (is_running s)) s)
| step_reset s :
    step s (set_running false __init__)
| step_speed s direction :
    direction = 1%Z \/ direction = (-1)%Z ->
    step s (_handle_speed_change direction s)
| step_update s dt rnd1 rnd2 :
    0 <= dt -> 0 <= rnd1 < 1 -> 0 <= rnd2 < 1 ->
    step s (_update_simulation_state dt rnd1 rnd2 s).

Inductive reachable : TNISimulator -> Prop :=
| reach_init : reachable __init__
| reach_step s s' : reachable s -> step s s' -> reachable s'.

(** The state a consumer reads after an update. *)
Record MissionPhaseState : Type := mkMissionPhaseState {
  mp_time : R;
  mp_phase : Phase;
  mp_altitude_km : R;
  mp_position_error_m : R;
  mp_velocity_error_m_s : R;
  mp_delta_v_saved_m_s : R;
  mp_active_link_count : Z
}.

Definition observe (s : TNISimulator) : MissionPhaseState :=
  mkMissionPhaseState (time_s s) (current_phase s) (altitude_km s)
    (position_error_m s) (velocity_error_mps s) (dv_saved_mps s)
    (active_links s).

(** One update call: [dt] and the two random draws it may consume. *)
Record Call : Type := mkCall {
  call_dt : R;
  call_rnd1 : R;
  call_rnd2 : R
}.

Definition advance (s : TNISimulator) (c : Call) : TNISimulator :=
  _update_simulation_state (call_dt c) (call_rnd1 c) (call_rnd2 c) s.

(** A sequence of update calls, first call first. *)
Definition advance_all (s : TNISimulator) (cs : list Call) : TNISimulator :=
  fold_left advance cs s.

(** Cumulative [dt] of a sequence of calls. *)
Definition elapsed (cs : list Call) : R :=
  fold_right (fun c acc => call_dt c + acc) 0 cs.

(** The simulator right after construction and one press of start. *)
Definition started : TNISimulator := set_running true __init__.

End Sim.

(** ** Closed forms used in the statements *)

(** The two burns [hohmann_transfer] returns where it is defined. *)
Definition first_burn (r1 r2 : R) : R :=
  Rabs (sqrt (MU_EARTH * (2 / r1 - 2 / (r1 + r2))) - sqrt (MU_EARTH / r1)) * 1000.

Definition second_burn (r1 r2 : R) : R :=
  Rabs (sqrt (MU_EARTH / r2) - sqrt (MU_EARTH * (2 / r2 - 2 / (r1 + r2)))) * 1000.

(** The value of [velocity_ms] where it is defined. *)
Definition orbital_speed (o : OrbitParams) : R :=
  sqrt (398600.4418 / radius_km o) * 1000.

(** The values the two rendezvous functions return where they are defined. *)
Definition hohmann_cost (chaser target : OrbitParams) : R :=
  first_burn (radius_km chaser) (radius_km target) +
  second_burn (radius_km chaser) (radius_km target).

Definition plane_change_cost (target : OrbitParams) (inclination_diff_deg : R) : R :=
  if Rlt_dec 0 inclination_diff_deg
  then plane_change (orbital_speed target) inclination_diff_deg
  else 0.0.

Definition log10_separation (separation_km : R) : R :=
  ln (Py.max 1 separation_km) / ln 10.

Definition standard_breakdown (chaser target : OrbitParams)
    (separation_km inclination_diff_deg : R) : DeltaVBreakdown :=
  let search_dv := 8.0 + (separation_km / 50) * 2.0 in
  let hohmann_dv := hohmann_cost chaser target in
  let pc := plane_change_cost target inclination_diff_deg in
  let approach := 6.0 + (separation_km / 100) * 4.0 in
  let final := 4.0 + 0.5 * log10_separation separation_km in
  let docking := 3.0 in
  mkDeltaVBreakdown search_dv hohmann_dv pc approach final docking
    ((search_dv + hohmann_dv + pc + approach + final + docking) * 0.22).

Definition tni_breakdown (chaser target : OrbitParams)
    (separation_km inclination_diff_deg : R) : DeltaVBreakdown :=
  let search_dv := 1.5 in
  let hohmann_dv := hohmann_cost chaser target * 0.7 in
  let pc := if Rlt_dec 0 inclination_diff_deg
            then plane_change (orbital_speed target) inclination_diff_deg * 0.85
            else 0.0 in
  let approach := 2.0 + (separation_km / 200) * 1.0 in
  let final := 1.5 + 0.2 * log10_separation separation_km in
  let docking := 1.2 in
  mkDeltaVBreakdown search_dv hohmann_dv pc approach final docking
    ((search_dv + hohmann_dv + pc + approach + final + docking) * 0.09).

(** The phasing cost as the specification words it: a drop-then-raise cycle
    with a 5 km offset, costed as the sum of the two Hohmann transfers, each
    with both of its burns. *)
Definition phasing_cycle (r_km : R) : Res R :=
  '(down1, down2) <- hohmann_transfer r_km (r_km - 5) ;;
  '(up1, up2) <- hohmann_transfer (r_km - 5) r_km ;;
  Ok ((down1 + down2) + (up1 + up2)).

(** ** Invariant of the simulator *)

(** The state as [__init__] leaves it, whatever [is_running] and the speed
    setting are. *)
Definition fresh (s : Sim.TNISimulator) : Prop :=
  Sim.current_phase s = Sim.PRE_LAUNCH /\
  Sim.time_s s = 0 /\
  Sim.altitude_km s = 0 /\
  Sim.position_error_m s = 25 /\
  Sim.velocity_error_mps s = 0.15 /\
  Sim.active_links s = 0%Z /\
  Sim.is_tni_active s = false.

(** The phase-dependent fields of [s] are the ones the dispatch at the
    clock of [s] assigns, for the draws [rnd1] and [rnd2]. *)
Definition agrees_with_dispatch (rnd1 rnd2 : R) (s : Sim.TNISimulator) : Prop :=
  let pv := Sim.dispatch (Sim.time_s s) rnd1 rnd2 s in
  Sim.current_phase s = Sim.pv_phase pv /\
  Sim.altitude_km s = Sim.pv_altitude pv /\
  Sim.is_tni_active s = Sim.pv_tni_active pv /\
  Sim.active_links s = Sim.pv_links pv /\
  Sim.position_error_m s = Sim.pv_pos_err pv /\
  Sim.velocity_error_mps s = Sim.pv_vel_err pv /\
  Sim.dv_saved_mps s = Sim.pv_dv_saved pv.

(** The state an update left behind: some pair of draws reproduces it. *)
Definition settled (s : Sim.TNISimulator) : Prop :=
  exists rnd1 rnd2, agrees_with_dispatch rnd1 rnd2 s.

(** ** [tni_deltav_calculations.py]: the figures of [print_scenario]

    The numbers [print_scenario] computes before it formats them; the
    satellite count is there only when the propellant saved reaches 260 kg. *)

Record ScenarioFigures : Type := mkScenarioFigures {
  fig_savings : R;
  fig_savings_pct : R;
  fig_prop_standard : R;
  fig_prop_tni : R;
  fig_prop_saved : R;
  fig_extra_sats : option Z
}.

Definition print_scenario (standard tni : DeltaVBreakdown) (vehicle_mass_kg : R)
    : Res ScenarioFigures :=
  let savings := total standard - total tni in
  q <- Py.div savings (total standard) ;;
  let savings_pct := q * 100 in
  prop_standard <- calculate_propellant_mass (total standard) vehicle_mass_kg 380 ;;
  prop_tni <- calculate_propellant_mass (total tni) vehicle_mass_kg 380 ;;
  let prop_saved := prop_standard - prop_tni in
  let extra_sats :=
    if Rle_dec 260 prop_saved then Some (Py.int (prop_saved / 260)) else None in
  Ok (mkScenarioFigures savings savings_pct prop_standard prop_tni prop_saved
        extra_sats).

(** ** [tni_performace.py]: the other estimators *)

Module Perf.

Definition calculate_delta_v_saved (current_dv_budget tni_dv_budget : R) : R :=
  let current_vel_error := 0.1 in
  let tni_vel_error := 0.001 in
  let proportional_savings := (current_vel_error - tni_vel_error) / current_vel_error in
  let estimated_savings := current_dv_budget * proportional_savings in
  estimated_savings.

Definition calculate_apoapsis_periapsis_error (current_error_km tni_error_m : R)
    : Res (R * R * R) :=
  let current_error_m := current_error_km * 1000 in
  improvement_factor <- Py.div current_error_m tni_error_m ;;
  Ok (current_error_m, tni_error_m, improvement_factor).

(** The dictionary [calculate_mission_value_savings] returns. *)
Record MissionValue : Type := mkMissionValue {
  payload_gain_kg : R;
  payload_value_usd : R;
  extra_satellites : Z
}.

Definition calculate_mission_value_savings (dv_saved_mps : R) : MissionValue :=
  let payload_gain_kg := dv_saved_mps * 400 in
  let payload_value_usd := payload_gain_kg * 2940 in
  mkMissionValue payload_gain_kg payload_value_usd (Py.int (payload_gain_kg / 260)).

End Perf.

(** ** [calc.py] *)

Module Calc.

Definition calculate_delta_v_saved (current_dv_budget tni_dv_budget : R) : Res R :=
  improvement_factor_vel <- Py.div current_dv_budget tni_dv_budget ;;
  let current_vel_error := 0.1 in
  let tni_vel_error := 0.001 in
  let proportional_savings := (current_vel_error - tni_vel_error) / current_vel_error in
  let estimated_savings := current_vel_error * proportional_savings * 100 in
  Ok estimated_savings.

End Calc.

(** ** [tni_presentation.py] *)

Module Pres.

Record ComparisonData : Type := mkComparisonData {
  cd_time : R;
  standard_pos_error : R;
  tni_pos_error : R;
  standard_vel_error : R;
  tni_vel_error : R;
  dv_saved : R
}.

Record TNIPresentationSim : Type := mkPres {
  time : R;
  running : bool;
  data : ComparisonData;
  pos_history_std : list R;
  pos_history_tni : list R;
  vel_history_std : list R;
  vel_history_tni : list R
}.

Definition max_history : nat := 300.

(** [__init__]. *)
Definition __init__ : TNIPresentationSim :=
  mkPres 0.0 true (mkComparisonData 0.0 3.0 3.0 0.1 0.1 0.0) [] [] [] [].

(** [random.uniform(a, b)] for the value [r] that [random.random()] gives. *)
Definition uniform (a b r : R) : R := a + (b - a) * r.

(** The values of [random.random()] behind the four [random.uniform] calls
    of an update, named by the field they perturb; the activation phase
    makes only the two standard-system calls. *)
Record Draws : Type := mkDraws {
  r_std_pos : R;
  r_tni_pos : R;
  r_std_vel : R;
  r_tni_vel : R
}.

(** [l.pop(0)]: [None] stands for the [IndexError] of an empty list. *)
Definition pop0 (l : list R) : option (list R) :=
  match l with
  | [] => None
  | _ :: l' => Some l'
  end.

(** The four error readings the phase chain of [update] assigns at time
    [t]. *)
Definition readings (t : R) (d : Draws) : R * R * R * R :=
  if Rlt_dec t 5.0 then
    (3.0 + uniform (-0.2) 0.2 (r_std_pos d),
     3.0 + uniform (-0.2) 0.2 (r_tni_pos d),
     0.1 + uniform (-0.01) 0.01 (r_std_vel d),
     0.1 + uniform (-0.01) 0.01 (r_tni_vel d))
  else if Rlt_dec t 10.0 then
    let activation_time := t - 5.0 in
    (3.0 + uniform (-0.2) 0.2 (r_std_pos d),
     Py.max 0.03 (3.0 * exp (- activation_time / 2)),
     0.1 + uniform (-0.01) 0.01 (r_std_vel d),
     Py.max 0.001 (0.1 * exp (- activation_time / 2)))
  else if Rlt_dec t 25.0 then
    (3.0 + uniform (-0.2) 0.2 (r_std_pos d),
     0.03 + uniform (-0.005) 0.005 (r_tni_pos d),
     0.1 + uniform (-0.01) 0.01 (r_std_vel d),
     0.001 + uniform (-0.0002) 0.0002 (r_tni_vel d))
  else
    (3.0 + uniform (-0.2) 0.2 (r_std_pos d),
     0.03 + uniform (-0.005) 0.005 (r_tni_pos d),
     0.1 + uniform (-0.01) 0.01 (r_std_vel d),
     0.001 + uniform (-0.0002) 0.0002 (r_tni_vel d)).

Definition update (dt : R) (d : Draws) (s : TNIPresentationSim)
    : option TNIPresentationSim :=
  let t := time s + dt in
  let '(std_pos, tni_pos, std_vel, tni_vel) := readings t d in
  let error_reduction := (std_pos - tni_pos) / 3.0 in
  let dv := Py.min 45.0 (error_reduction * 45.0) in
  let data' := mkComparisonData (cd_time (data s)) std_pos tni_pos std_vel tni_vel dv in
  let hps := pos_history_std s ++ [std_pos] in
  let hpt := pos_history_tni s ++ [tni_pos] in
  let hvs := vel_history_std s ++ [std_vel * 1000] in
  let hvt := vel_history_tni s ++ [tni_vel * 1000] in
  if (max_history <? List.length hps)%nat then
    match pop0 hps, pop0 hpt, pop0 hvs, pop0 hvt with
    | Some hps', Some hpt', Some hvs', Some hvt' =>
        Some (mkPres t (running s) data' hps' hpt' hvs' hvt')
    | _, _, _, _ => None
    end
  else Some (mkPres t (running s) data' hps hpt hvs hvt).

(** A sequence of updates, first one first; [None] once an update raised. *)
Fixpoint run_updates (s : TNIPresentationSim) (steps : list (R * Draws))
    : option TNIPresentationSim :=
  match steps with
  | [] => Some s
  | (dt, d) :: rest =>
      match update dt d s with
      | Some s' => run_updates s' rest
      | None => None
      end
  end.

(** The draws of an update are values of [random.random()]. *)
Definition unit_draws (d : Draws) : Prop :=
  0 <= r_std_pos d < 1 /\ 0 <= r_tni_pos d < 1 /\
  0 <= r_std_vel d < 1 /\ 0 <= r_tni_vel d < 1.

End Pres.

(** ** Phase order of the mission simulator *)

Definition phase_rank (p : Sim.Phase) : nat :=
  match p with
  | Sim.PRE_LAUNCH => 0
  | Sim.ASCENT => 1
  | Sim.TNI_ACTIVATION => 2
  | Sim.ORBITAL_INSERTION => 3
  | Sim.TNI_DISCONNECT => 4
  | Sim.NOMINAL_ORBIT => 5
  end.

(** * Properties *)

(** ** The fallible operations on their domains *)

Lemma div_defined (x y : R) : y <> 0 -> Py.div x y = Ok (x / y).
Proof.
  intros Hy. unfold Py.div. destruct (Req_dec_T y 0) as [E | _]; [contradiction | reflexivity].
Qed.

Lemma div_by_zero (x : R) : Py.div x 0 = Err ZeroDivisionError.
Proof.
  unfold Py.div. destruct (Req_dec_T 0 0) as [_ | N]; [reflexivity | now elim N].
Qed.

Lemma sqrt_defined (x : R) : 0 <= x -> Py.sqrt x = Ok (sqrt x).
Proof.
  intros Hx. unfold Py.sqrt. destruct (Rlt_dec x 0) as [L | _]; [lra | reflexivity].
Qed.

Lemma sqrt_of_negative (x : R) : x < 0 -> Py.sqrt x = Err ValueError.
Proof.
  intros Hx. unfold Py.sqrt. destruct (Rlt_dec x 0) as [_ | N]; [reflexivity | contradiction].
Qed.

Lemma log10_defined (x : R) : 0 < x -> Py.log10 x = Ok (ln x / ln 10).
Proof.
  intros Hx. unfold Py.log10. destruct (Rle_dec x 0) as [L | _]; [lra | reflexivity].
Qed.

Lemma max_one_ge (x : R) : 1 <= Py.max 1 x.
Proof. unfold Py.max. destruct (Rlt_dec 1 x); lra. Qed.

Lemma ln10_pos : 0 < ln 10.
Proof. rewrite <- ln_1. apply ln_increasing; lra. Qed.

Lemma log10_max_nonneg (x : R) : 0 <= ln (Py.max 1 x) / ln 10.
Proof.
  pose proof (max_one_ge x) as H. pose proof ln10_pos as L.
  apply Rmult_le_pos; [ | left; now apply Rinv_0_lt_compat ].
  destruct H as [H | <-]; [ | rewrite ln_1; lra ].
  left. rewrite <- ln_1. apply ln_increasing; lra.
Qed.

(** ** Hohmann transfer *)

Lemma transfer_speed_arg_pos (r r' : R) : 0 < r -> 0 < r' -> 0 < 2 / r - 2 / (r + r').
Proof.
  intros Hr Hr'.
  replace (2 / r - 2 / (r + r')) with (2 * r' / (r * (r + r'))) by (field; lra).
  apply Rdiv_lt_0_compat; nra.
Qed.

Lemma hohmann_transfer_defined (r1 r2 : R) :
  0 < r1 -> 0 < r2 ->
  hohmann_transfer r1 r2 = Ok (first_burn r1 r2, second_burn r1 r2).
Proof.
  intros H1 H2. unfold hohmann_transfer, first_burn, second_burn.
  assert (Hmu : 0 < MU_EARTH) by (unfold MU_EARTH; lra).
  pose proof (transfer_speed_arg_pos r1 r2 H1 H2) as T1.
  pose proof (transfer_speed_arg_pos r2 r1 H2 H1) as T2.
  rewrite (Rplus_comm r2 r1) in T2.
  rewrite !(div_defined _ r1), !(div_defined _ r2), !(div_defined _ (r1 + r2)) by lra.
  cbn [bind].
  rewrite !sqrt_defined; cbn [bind]; try reflexivity.
  - apply Rmult_le_pos; lra.
  - left. apply Rdiv_lt_0_compat; lra.
  - apply Rmult_le_pos; lra.
  - left. apply Rdiv_lt_0_compat; lra.
Qed.

Lemma first_burn_nonneg (r1 r2 : R) : 0 <= first_burn r1 r2.
Proof. unfold first_burn. pose proof (Rabs_pos (sqrt (MU_EARTH * (2 / r1 - 2 / (r1 + r2))) - sqrt (MU_EARTH / r1))). lra. Qed.

Lemma second_burn_nonneg (r1 r2 : R) : 0 <= second_burn r1 r2.
Proof. unfold second_burn. pose proof (Rabs_pos (sqrt (MU_EARTH / r2) - sqrt (MU_EARTH * (2 / r2 - 2 / (r1 + r2))))). lra. Qed.

(** The first burn of the reverse transfer is the second burn of the forward
    one. *)
Lemma first_burn_swap (r1 r2 : R) : first_burn r2 r1 = second_burn r1 r2.
Proof.
  unfold first_burn, second_burn. rewrite (Rplus_comm r2 r1).
  now rewrite Rabs_minus_sym.
Qed.

(** C6: above the Earth's radius a Hohmann transfer is defined, both burns
    are non-negative, and the transfer and its reverse cost the same in
    total. *)
Theorem hohmann_transfer_nonneg_symmetric (r1_km r2_km : R) :
  EARTH_RADIUS < r1_km -> EARTH_RADIUS < r2_km ->
  exists dv1 dv2 dv1' dv2',
    hohmann_transfer r1_km r2_km = Ok (dv1, dv2) /\
    hohmann_transfer r2_km r1_km = Ok (dv1', dv2') /\
    0 <= dv1 /\ 0 <= dv2 /\
    dv1 + dv2 = dv1' + dv2'.
Proof.
  unfold EARTH_RADIUS. intros H1 H2.
  exists (first_burn r1_km r2_km), (second_burn r1_km r2_km),
         (first_burn r2_km r1_km), (second_burn r2_km r1_km).
  repeat split.
  - apply hohmann_transfer_defined; lra.
  - apply hohmann_transfer_defined; lra.
  - apply first_burn_nonneg.
  - apply second_burn_nonneg.
  - rewrite (first_burn_swap r1_km r2_km), <- (first_burn_swap r2_km r1_km). lra.
Qed.

Lemma hohmann_transfer_nonneg_symmetric_witness :
  exists dv1 dv2 dv1' dv2',
    hohmann_transfer 6766 6771 = Ok (dv1, dv2) /\
    hohmann_transfer 6771 6766 = Ok (dv1', dv2') /\
    0 <= dv1 /\ 0 <= dv2 /\
    dv1 + dv2 = dv1' + dv2'.
Proof.
  apply (hohmann_transfer_nonneg_symmetric 6766 6771); unfold EARTH_RADIUS; lra.
Defined.

(** ** Rocket equation *)

Lemma exp_defined (x : R) :
  Py.EXP_UNDERFLOW <= x <= Py.EXP_OVERFLOW -> Py.exp x = Ok (exp x).
Proof.
  intros [Hlo Hhi]. unfold Py.exp.
  destruct (Rlt_dec Py.EXP_OVERFLOW x) as [L | _]; [lra | ].
  destruct (Rlt_dec x Py.EXP_UNDERFLOW) as [L | _]; [lra | reflexivity].
Qed.

Lemma exp_overflows (x : R) : Py.EXP_OVERFLOW < x -> Py.exp x = Err OverflowError.
Proof.
  intros H. unfold Py.exp.
  destruct (Rlt_dec Py.EXP_OVERFLOW x) as [_ | N]; [reflexivity | contradiction].
Qed.

Lemma exp_underflows (x : R) : x < Py.EXP_UNDERFLOW -> Py.exp x = Ok 0.
Proof.
  intros H. unfold Py.exp.
  destruct (Rlt_dec Py.EXP_OVERFLOW x) as [L | _];
    [unfold Py.EXP_OVERFLOW, Py.EXP_UNDERFLOW in *; lra | ].
  destruct (Rlt_dec x Py.EXP_UNDERFLOW) as [_ | N]; [reflexivity | contradiction].
Qed.

(** Where the simulators call [math.exp], on arguments between -10 and 0,
    it is the real exponential. *)
Lemma exp_in_range (x : R) : -10 <= x <= 0 -> Py.exp x = Ok (exp x).
Proof.
  intros H. apply exp_defined. unfold Py.EXP_UNDERFLOW, Py.EXP_OVERFLOW. lra.
Qed.

(** The four calls of the simulators: the activation branches run for
    [150 <= t < 170] and for [5 <= t < 10]. *)
Lemma simulator_exp_arguments (t t' : R) :
  150 <= t < 170 -> 5 <= t' < 10 ->
  Py.exp (- (t - 150) / 9) = Ok (exp (- (t - 150) / 9)) /\
  Py.exp (- (t - 150) / 7) = Ok (exp (- (t - 150) / 7)) /\
  Py.exp (- (t' - 5.0) / 2) = Ok (exp (- (t' - 5.0) / 2)).
Proof.
  intros Ht Ht'. repeat split; apply exp_in_range; lra.
Qed.

Lemma neg_ratio_in_range (dv ve : R) :
  0 < ve -> 0 <= dv -> dv / ve <= - Py.EXP_UNDERFLOW ->
  Py.EXP_UNDERFLOW <= - dv / ve <= Py.EXP_OVERFLOW.
Proof.
  intros Hve Hdv Hle.
  replace (- dv / ve) with (- (dv / ve)) by (field; lra).
  assert (0 <= dv / ve).
  { unfold Rdiv. apply Rmult_le_pos; [lra | left; now apply Rinv_0_lt_compat]. }
  unfold Py.EXP_OVERFLOW, Py.EXP_UNDERFLOW in *. lra.
Qed.

Lemma propellant_mass_defined (dv dry isp : R) :
  isp <> 0 ->
  Py.EXP_UNDERFLOW <= - dv / (isp * 9.80665) <= Py.EXP_OVERFLOW ->
  calculate_propellant_mass dv dry isp =
  Ok (dry / exp (- dv / (isp * 9.80665)) - dry).
Proof.
  intros Hisp Hrange. unfold calculate_propellant_mass.
  rewrite div_defined by nra. cbn [bind].
  rewrite exp_defined by assumption. cbn [bind].
  rewrite div_defined by (pose proof (exp_pos (- dv / (isp * 9.80665))); lra).
  reflexivity.
Qed.

Lemma propellant_mass_underflow (dv dry isp : R) :
  isp <> 0 -> - dv / (isp * 9.80665) < Py.EXP_UNDERFLOW ->
  calculate_propellant_mass dv dry isp = Err ZeroDivisionError.
Proof.
  intros Hisp H. unfold calculate_propellant_mass.
  rewrite div_defined by nra. cbn [bind].
  rewrite exp_underflows by assumption. cbn [bind].
  rewrite div_by_zero. reflexivity.
Qed.

Lemma propellant_mass_overflow (dv dry isp : R) :
  isp <> 0 -> Py.EXP_OVERFLOW < - dv / (isp * 9.80665) ->
  calculate_propellant_mass dv dry isp = Err OverflowError.
Proof.
  intros Hisp H. unfold calculate_propellant_mass.
  rewrite div_defined by nra. cbn [bind].
  rewrite exp_overflows by assumption. reflexivity.
Qed.

Lemma rocket_form (dry x : R) : dry / exp (- x) - dry = dry * (exp x - 1).
Proof.
  rewrite exp_Ropp. pose proof (exp_pos x). field. lra.
Qed.

Lemma propellant_mass_rocket_form (dv dry isp : R) :
  isp <> 0 ->
  Py.EXP_UNDERFLOW <= - dv / (isp * 9.80665) <= Py.EXP_OVERFLOW ->
  calculate_propellant_mass dv dry isp =
  Ok (dry * (exp (dv / (isp * 9.80665)) - 1)).
Proof.
  intros Hisp Hrange. rewrite propellant_mass_defined by assumption. f_equal.
  replace (- dv / (isp * 9.80665)) with (- (dv / (isp * 9.80665))) by (field; lra).
  apply rocket_form.
Qed.

Lemma propellant_cost_savings_defined (dv isp dry : R) :
  isp <> 0 ->
  Py.EXP_UNDERFLOW <= dv / (isp * 9.81) <= Py.EXP_OVERFLOW ->
  calculate_propellant_cost_savings dv isp dry =
  Ok (dry * (exp (dv / (isp * 9.81)) - 1),
      dry * (exp (dv / (isp * 9.81)) - 1) * 0.50).
Proof.
  intros Hisp Hrange. unfold calculate_propellant_cost_savings.
  rewrite div_defined by nra. cbn [bind].
  rewrite exp_defined by assumption. reflexivity.
Qed.

Lemma propellant_cost_savings_overflow (dv isp dry : R) :
  isp <> 0 -> Py.EXP_OVERFLOW < dv / (isp * 9.81) ->
  calculate_propellant_cost_savings dv isp dry = Err OverflowError.
Proof.
  intros Hisp H. unfold calculate_propellant_cost_savings.
  rewrite div_defined by nra. cbn [bind].
  rewrite exp_overflows by assumption. reflexivity.
Qed.

Lemma ratio_nonneg (dv ve : R) : 0 < ve -> 0 <= dv -> 0 <= dv / ve.
Proof.
  intros Hve Hdv. unfold Rdiv.
  apply Rmult_le_pos; [lra | left; now apply Rinv_0_lt_compat].
Qed.

Lemma ratio_monotone (dv dv' ve : R) : 0 < ve -> dv < dv' -> dv / ve < dv' / ve.
Proof.
  intros Hve Hlt. unfold Rdiv. apply Rmult_lt_compat_r; [ | assumption ].
  now apply Rinv_0_lt_compat.
Qed.

(** C7, as the code has it: for a positive dry mass and a positive specific
    impulse the propellant mass is [0] at [dv_ms = 0] and strictly
    increasing in [dv_ms] as long as [dv_ms / ve] stays within the range of
    [math.exp] (at most 745.1332191019411); beyond it the mass ratio
    underflows to [0.0] and the function raises [ZeroDivisionError]. *)
Theorem propellant_mass_zero_and_increasing (dry_mass_kg isp_s : R) :
  0 < dry_mass_kg -> 0 < isp_s ->
  calculate_propellant_mass 0 dry_mass_kg isp_s = Ok 0 /\
  (forall dv dv' : R, 0 <= dv -> dv < dv' ->
     dv' / (isp_s * 9.80665) <= - Py.EXP_UNDERFLOW ->
     exists m m',
       calculate_propellant_mass dv dry_mass_kg isp_s = Ok m /\
       calculate_propellant_mass dv' dry_mass_kg isp_s = Ok m' /\
       m < m') /\
  (forall dv : R, - Py.EXP_UNDERFLOW < dv / (isp_s * 9.80665) ->
     calculate_propellant_mass dv dry_mass_kg isp_s = Err ZeroDivisionError).
Proof.
  intros Hdry Hisp.
  assert (Hve : 0 < isp_s * 9.80665) by lra.
  split; [ | split ].
  - rewrite propellant_mass_rocket_form; [ | lra | ].
    + f_equal. replace (0 / (isp_s * 9.80665)) with 0 by (field; lra).
      rewrite exp_0. ring.
    + apply neg_ratio_in_range; [lra | lra | ].
      replace (0 / (isp_s * 9.80665)) with 0 by (field; lra).
      unfold Py.EXP_UNDERFLOW. lra.
  - intros dv dv' Hdv Hlt Hmax.
    pose proof (ratio_monotone dv dv' _ Hve Hlt) as Hr.
    exists (dry_mass_kg * (exp (dv / (isp_s * 9.80665)) - 1)),
           (dry_mass_kg * (exp (dv' / (isp_s * 9.80665)) - 1)).
    rewrite !propellant_mass_rocket_form;
      try lra; try (apply neg_ratio_in_range; lra).
    repeat split.
    pose proof (exp_increasing _ _ Hr). nra.
  - intros dv Hbig. apply propellant_mass_underflow; [lra | ].
    replace (- dv / (isp_s * 9.80665)) with (- (dv / (isp_s * 9.80665))) by (field; lra).
    lra.
Qed.

Lemma propellant_mass_zero_and_increasing_witness :
  calculate_propellant_mass 0 100000 380 = Ok 0 /\
  exists m m',
    calculate_propellant_mass 10 100000 380 = Ok m /\
    calculate_propellant_mass 20 100000 380 = Ok m' /\
    m < m'.
Proof.
  destruct (propellant_mass_zero_and_increasing 100000 380) as (H0 & Hinc & _);
    [lra | lra | ].
  split; [exact H0 | apply Hinc; unfold Py.EXP_UNDERFLOW; lra].
Defined.

(** C7, as stated, fails: at [dv_ms = 3000000] with the reference vehicle
    (dry mass 100000 kg, Isp 380 s) the function returns nothing: the mass
    ratio underflows and the division by it raises. *)
Lemma propellant_mass_raises_at_large_dv :
  0 <= 3000000 /\ 0 < 100000 /\ 0 < 380 /\
  calculate_propellant_mass 3000000 100000 380 = Err ZeroDivisionError.
Proof.
  repeat split; try lra.
  apply propellant_mass_underflow; [lra | unfold Py.EXP_UNDERFLOW; lra].
Qed.

(** C10, as the code has it: while [dv / (isp_s * 9.80665)] is within the
    range of [math.exp] the two modules compute the same expression
    [m_dry * (e^(dv/ve) - 1)] but with different values of [g0] ([9.80665]
    and [9.81]); the results coincide exactly when [dv = 0], and otherwise
    the one of [tni_deltav_calculations] is the larger. *)
Theorem rocket_equations_agree_up_to_g0 (dv dry_mass_kg isp_s : R) :
  0 <= dv -> 0 < dry_mass_kg -> 0 < isp_s ->
  dv / (isp_s * 9.80665) <= Py.EXP_OVERFLOW ->
  exists m m' cost,
    calculate_propellant_mass dv dry_mass_kg isp_s = Ok m /\
    calculate_propellant_cost_savings dv isp_s dry_mass_kg = Ok (m', cost) /\
    m = dry_mass_kg * (exp (dv / (isp_s * 9.80665)) - 1) /\
    m' = dry_mass_kg * (exp (dv / (isp_s * 9.81)) - 1) /\
    m' <= m /\
    (m = m' <-> dv = 0).
Proof.
  intros Hdv Hdry Hisp Hmax.
  assert (Hinv : / (isp_s * 9.81) < / (isp_s * 9.80665)).
  { apply Rinv_lt_contravar; nra. }
  assert (Hpos : 0 < / (isp_s * 9.81)) by (apply Rinv_0_lt_compat; lra).
  assert (Hle : dv / (isp_s * 9.81) <= dv / (isp_s * 9.80665)).
  { unfold Rdiv. apply Rmult_le_compat_l; lra. }
  pose proof (ratio_nonneg dv (isp_s * 9.81) ltac:(lra) Hdv) as H0.
  rewrite propellant_mass_rocket_form, propellant_cost_savings_defined;
    [ | lra | unfold Py.EXP_UNDERFLOW, Py.EXP_OVERFLOW in *; lra | lra
      | apply neg_ratio_in_range;
        [lra | lra | unfold Py.EXP_UNDERFLOW, Py.EXP_OVERFLOW in *; lra] ].
  do 3 eexists. split; [reflexivity | ]. split; [reflexivity | ].
  split; [reflexivity | ]. split; [reflexivity | ].
  destruct Hdv as [Hdv | <-].
  - assert (Hexp : exp (dv / (isp_s * 9.81)) < exp (dv / (isp_s * 9.80665))).
    { apply exp_increasing. unfold Rdiv. now apply Rmult_lt_compat_l. }
    split; [nra | ]. split; intros E; [nra | lra].
  - unfold Rdiv. rewrite !Rmult_0_l. split; [lra | ]. split; reflexivity.
Qed.

Lemma rocket_equations_agree_up_to_g0_witness :
  exists m m' cost,
    calculate_propellant_mass 45 120000 380 = Ok m /\
    calculate_propellant_cost_savings 45 380 120000 = Ok (m', cost) /\
    m = 120000 * (exp (45 / (380 * 9.80665)) - 1) /\
    m' = 120000 * (exp (45 / (380 * 9.81)) - 1) /\
    m' <= m /\
    (m = m' <-> 45 = 0).
Proof.
  apply (rocket_equations_agree_up_to_g0 45 120000 380);
    unfold Py.EXP_OVERFLOW; lra.
Defined.

(** C10, as stated, fails: at [dv = 45], [dry_mass_kg = 120000],
    [isp_s = 380] the two functions return different propellant masses. *)
Lemma rocket_equations_disagree :
  exists m m' cost,
    calculate_propellant_mass 45 120000 380 = Ok m /\
    calculate_propellant_cost_savings 45 380 120000 = Ok (m', cost) /\
    m <> m'.
Proof.
  rewrite propellant_mass_rocket_form, propellant_cost_savings_defined;
    try lra; try (unfold Py.EXP_UNDERFLOW, Py.EXP_OVERFLOW; lra).
  do 3 eexists. split; [reflexivity | ]. split; [reflexivity | ].
  assert (Hexp : exp (45 / (380 * 9.81)) < exp (45 / (380 * 9.80665))).
  { apply exp_increasing. lra. }
  lra.
Qed.

(** ** Input validation *)

Lemma div_pos_neg (x y : R) : 0 < x -> y < 0 -> x / y < 0.
Proof.
  intros Hx Hy. pose proof (Rinv_lt_0_compat y Hy). unfold Rdiv. nra.
Qed.

Lemma div_neg_pos (x y : R) : x < 0 -> 0 < y -> x / y < 0.
Proof.
  intros Hx Hy. pose proof (Rinv_0_lt_compat y Hy). unfold Rdiv. nra.
Qed.

Lemma velocity_ms_defined (o : OrbitParams) :
  0 < radius_km o -> velocity_ms o = Ok (orbital_speed o).
Proof.
  intros Hr. unfold velocity_ms, orbital_speed.
  rewrite div_defined by lra. cbn [bind].
  rewrite sqrt_defined; [reflexivity | ].
  left. apply Rdiv_lt_0_compat; lra.
Qed.

Lemma transfer_speed_arg (r r' : R) :
  r <> 0 -> r + r' <> 0 -> 2 / r - 2 / (r + r') = 2 * r' / (r * (r + r')).
Proof. intros H1 H2. field. split; assumption. Qed.

(** The errors of [hohmann_transfer] once the first radius is positive. *)
Lemma hohmann_transfer_second_radius (r1 r2 : R) :
  0 < r1 ->
  (r2 = 0 \/ r2 = - r1 -> hohmann_transfer r1 r2 = Err ZeroDivisionError) /\
  (r2 < 0 -> r2 <> - r1 -> hohmann_transfer r1 r2 = Err ValueError).
Proof.
  intros H1. assert (Hmu : 0 < MU_EARTH) by (unfold MU_EARTH; lra).
  assert (Hq : 0 <= MU_EARTH / r1) by (left; apply Rdiv_lt_0_compat; lra).
  unfold hohmann_transfer.
  rewrite (div_defined MU_EARTH r1) by lra. cbn [bind].
  rewrite (sqrt_defined (MU_EARTH / r1)) by assumption. cbn [bind].
  rewrite (div_defined 2 r1) by lra. cbn [bind].
  split.
  - intros [-> | ->].
    + rewrite (div_defined 2 (r1 + 0)) by lra. cbn [bind].
      rewrite sqrt_defined.
      * cbn [bind]. rewrite div_by_zero. reflexivity.
      * replace (2 / r1 - 2 / (r1 + 0)) with 0 by (field; lra). lra.
    + replace (r1 + - r1) with 0 by ring. rewrite div_by_zero. reflexivity.
  - intros Hneg Hne.
    assert (Hsum : r1 + r2 <> 0) by lra.
    rewrite (div_defined 2 (r1 + r2)) by assumption. cbn [bind].
    destruct (Rlt_dec 0 (r1 + r2)) as [P | P].
    + (* - r1 < r2 < 0: the transfer speed at r1 has a negative argument *)
      rewrite sqrt_of_negative; [reflexivity | ].
      rewrite transfer_speed_arg by lra.
      assert (2 * r2 / (r1 * (r1 + r2)) < 0) by (apply div_neg_pos; nra). nra.
    + (* r2 < - r1: the first burn is computed, the circular speed at r2 fails *)
      assert (Hs : r1 + r2 < 0) by lra.
      rewrite sqrt_defined.
      * cbn [bind]. rewrite (div_defined MU_EARTH r2) by lra. cbn [bind].
        rewrite sqrt_of_negative; [reflexivity | ]. apply div_pos_neg; lra.
      * rewrite transfer_speed_arg by lra.
        assert (0 < 2 * r2 / (r1 * (r1 + r2))).
        { replace (2 * r2 / (r1 * (r1 + r2)))
            with ((- (2 * r2)) / (r1 * (- (r1 + r2)))) by (field; lra).
          apply Rdiv_lt_0_compat; nra. }
        nra.
Qed.

(** C5, as the code has it: nothing is validated, and every error is one
    that a division, a square root or an exponential raises by itself.  The
    rocket equation returns a number, whatever the dry mass, when
    [isp_s <> 0] and the exponent [-dv_ms / ve] is within the range of
    [math.exp]; it raises [ZeroDivisionError] for [isp_s = 0] and when the
    mass ratio underflows to zero, and [OverflowError] when the exponent,
    still a finite float, is too large.  [velocity_ms] returns for a positive radius and raises
    [ZeroDivisionError] at a zero and [ValueError] at a negative one.
    [hohmann_transfer] returns when both radii are positive, raises
    [ZeroDivisionError] when [r1 = 0] or, for a positive [r1], when [r2] is
    [0] or [-r1], and [ValueError] in every other case. *)
Theorem errors_are_those_of_the_arithmetic :
  (forall dv dry isp : R, isp <> 0 ->
     Py.EXP_UNDERFLOW <= - dv / (isp * 9.80665) <= Py.EXP_OVERFLOW ->
     exists m, calculate_propellant_mass dv dry isp = Ok m) /\
  (forall dv dry : R,
     calculate_propellant_mass dv dry 0 = Err ZeroDivisionError) /\
  (forall dv dry isp : R, isp <> 0 ->
     - dv / (isp * 9.80665) < Py.EXP_UNDERFLOW ->
     calculate_propellant_mass dv dry isp = Err ZeroDivisionError) /\
  (forall dv dry isp : R, isp <> 0 ->
     Py.EXP_OVERFLOW < - dv / (isp * 9.80665) <= Py.FLOAT_MAX ->
     calculate_propellant_mass dv dry isp = Err OverflowError) /\
  (forall o : OrbitParams, 0 < radius_km o ->
     exists v, velocity_ms o = Ok v) /\
  (forall o : OrbitParams, radius_km o = 0 ->
     velocity_ms o = Err ZeroDivisionError) /\
  (forall o : OrbitParams, radius_km o < 0 ->
     velocity_ms o = Err ValueError) /\
  (forall r1 r2 : R, 0 < r1 -> 0 < r2 ->
     exists dv1 dv2, hohmann_transfer r1 r2 = Ok (dv1, dv2)) /\
  (forall r2 : R, hohmann_transfer 0 r2 = Err ZeroDivisionError) /\
  (forall r1 r2 : R, 0 < r1 -> r2 = 0 \/ r2 = - r1 ->
     hohmann_transfer r1 r2 = Err ZeroDivisionError) /\
  (forall r1 r2 : R, r1 < 0 -> hohmann_transfer r1 r2 = Err ValueError) /\
  (forall r1 r2 : R, 0 < r1 -> r2 < 0 -> r2 <> - r1 ->
     hohmann_transfer r1 r2 = Err ValueError).
Proof.
  repeat split.
  - intros dv dry isp Hisp Hr. eexists. now apply propellant_mass_defined.
  - intros dv dry. unfold calculate_propellant_mass.
    rewrite Rmult_0_l, div_by_zero. reflexivity.
  - intros dv dry isp Hisp Hr. now apply propellant_mass_underflow.
  - intros dv dry isp Hisp [Hr _]. now apply propellant_mass_overflow.
  - intros o Hr. eexists. now apply velocity_ms_defined.
  - intros o Hr. unfold velocity_ms. rewrite Hr, div_by_zero. reflexivity.
  - intros o Hr. unfold velocity_ms. rewrite div_defined by lra. cbn [bind].
    rewrite sqrt_of_negative; [reflexivity | ].
    apply div_pos_neg; lra.
  - intros r1 r2 H1 H2. do 2 eexists. now apply hohmann_transfer_defined.
  - intros r2. unfold hohmann_transfer. rewrite div_by_zero. reflexivity.
  - intros r1 r2 H1 H2. now apply (proj1 (hohmann_transfer_second_radius r1 r2 H1)).
  - intros r1 r2 Hr. unfold hohmann_transfer. rewrite div_defined by lra.
    cbn [bind]. rewrite sqrt_of_negative; [reflexivity | ].
    apply div_pos_neg; [unfold MU_EARTH | ]; lra.
  - intros r1 r2 H1 H2 H3. now apply (proj2 (hohmann_transfer_second_radius r1 r2 H1)).
Qed.

Lemma errors_are_those_of_the_arithmetic_witness :
  (exists m, calculate_propellant_mass 45 (-120000) (-380) = Ok m) /\
  calculate_propellant_mass 45 120000 0.005 = Err ZeroDivisionError /\
  calculate_propellant_mass 45 120000 (-0.005) = Err OverflowError /\
  (exists v, velocity_ms (orbit_at (-100)) = Ok v) /\
  velocity_ms (orbit_at (-6371)) = Err ZeroDivisionError /\
  velocity_ms (orbit_at (-7000)) = Err ValueError /\
  hohmann_transfer 5 (-5) = Err ZeroDivisionError /\
  hohmann_transfer (-1) 6771 = Err ValueError /\
  hohmann_transfer 5 (-3) = Err ValueError.
Proof.
  destruct errors_are_those_of_the_arithmetic
    as (Hprop & _ & Hunder & Hover & Hvel & Hzero & Hneg & _ & _ & Hsum & Hhoh & Hsec).
  split; [apply Hprop; unfold Py.EXP_UNDERFLOW, Py.EXP_OVERFLOW; lra | ].
  split; [apply Hunder; unfold Py.EXP_UNDERFLOW; lra | ].
  split; [apply Hover; unfold Py.EXP_OVERFLOW, Py.FLOAT_MAX; lra | ].
  split; [apply Hvel; unfold radius_km, orbit_at; cbn; lra | ].
  split; [apply Hzero; unfold radius_km, orbit_at; cbn; lra | ].
  split; [apply Hneg; unfold radius_km, orbit_at; cbn; lra | ].
  split; [apply Hsum; [lra | right; lra] | ].
  split; [apply Hhoh; lra | apply Hsec; lra].
Defined.

(** C5, as stated, fails: a negative dry mass, a negative specific impulse
    and a negative altitude are all accepted and a number comes back. *)
Lemma invalid_input_is_not_rejected :
  (exists m, calculate_propellant_mass 45 (-120000) 380 = Ok m /\ m < 0) /\
  (exists m, calculate_propellant_mass 45 120000 (-380) = Ok m /\ m < 0) /\
  (exists m, calculate_propellant_mass 45 0 380 = Ok m) /\
  (exists v, radius_km (orbit_at (-100)) = 6271 /\
             velocity_ms (orbit_at (-100)) = Ok v).
Proof.
  repeat split.
  - rewrite propellant_mass_rocket_form;
      try lra; try (unfold Py.EXP_UNDERFLOW, Py.EXP_OVERFLOW; lra).
    eexists. split; [reflexivity | ].
    assert (H : exp 0 < exp (45 / (380 * 9.80665))) by (apply exp_increasing; lra).
    rewrite exp_0 in H. nra.
  - rewrite propellant_mass_rocket_form;
      try lra; try (unfold Py.EXP_UNDERFLOW, Py.EXP_OVERFLOW; lra).
    eexists. split; [reflexivity | ].
    assert (H : exp (45 / (-380 * 9.80665)) < exp 0) by (apply exp_increasing; lra).
    rewrite exp_0 in H. nra.
  - rewrite propellant_mass_rocket_form;
      try lra; try (unfold Py.EXP_UNDERFLOW, Py.EXP_OVERFLOW; lra).
    eexists. reflexivity.
  - exists (orbital_speed (orbit_at (-100))). split.
    + unfold radius_km, orbit_at. cbn. lra.
    + apply velocity_ms_defined. unfold radius_km, orbit_at. cbn. lra.
Qed.

(** ** Rendezvous cost model *)

Lemma standard_rendezvous_defined (chaser target : OrbitParams) (sep inc : R) :
  0 < radius_km chaser -> 0 < radius_km target ->
  calculate_standard_rendezvous chaser target sep inc =
  Ok (standard_breakdown chaser target sep inc).
Proof.
  intros Hc Ht. unfold calculate_standard_rendezvous, standard_breakdown,
    plane_change_cost, hohmann_cost, log10_separation.
  rewrite hohmann_transfer_defined by assumption. cbn [bind].
  rewrite log10_defined by (pose proof (max_one_ge sep); lra).
  destruct (Rlt_dec 0 inc) as [Hi | Hi].
  - rewrite velocity_ms_defined by assumption. reflexivity.
  - reflexivity.
Qed.

Lemma tni_rendezvous_defined (chaser target : OrbitParams) (sep inc : R) :
  0 < radius_km chaser -> 0 < radius_km target ->
  calculate_tni_rendezvous chaser target sep inc =
  Ok (tni_breakdown chaser target sep inc).
Proof.
  intros Hc Ht. unfold calculate_tni_rendezvous, tni_breakdown,
    plane_change_cost, hohmann_cost, log10_separation.
  rewrite hohmann_transfer_defined by assumption. cbn [bind].
  rewrite log10_defined by (pose proof (max_one_ge sep); lra).
  destruct (Rlt_dec 0 inc) as [Hi | Hi].
  - rewrite velocity_ms_defined by assumption. reflexivity.
  - reflexivity.
Qed.

Lemma total_unfold (b : DeltaVBreakdown) : total b = planned_dv b + safety_margin b.
Proof. unfold total, planned_dv, Py.sum. cbn [fold_left]. ring. Qed.

Lemma hohmann_cost_nonneg (chaser target : OrbitParams) : 0 <= hohmann_cost chaser target.
Proof.
  unfold hohmann_cost.
  pose proof (first_burn_nonneg (radius_km chaser) (radius_km target)).
  pose proof (second_burn_nonneg (radius_km chaser) (radius_km target)). lra.
Qed.

Lemma orbital_speed_nonneg (o : OrbitParams) : 0 <= orbital_speed o.
Proof.
  unfold orbital_speed. pose proof (sqrt_pos (398600.4418 / radius_km o)). lra.
Qed.

(** C3, as the code has it: the breakdowns the two rendezvous functions
    return carry a safety margin of 0.22 (standard) and 0.09 (TNI) times the
    sum of the other six components; the margin is a stored field, fixed at
    construction, and assigning another field leaves it as it was. *)
Theorem safety_margin_of_returned_breakdowns
    (chaser target : OrbitParams) (separation_km inclination_diff_deg : R) :
  0 < radius_km chaser -> 0 < radius_km target ->
  exists s t,
    calculate_standard_rendezvous chaser target separation_km inclination_diff_deg = Ok s /\
    calculate_tni_rendezvous chaser target separation_km inclination_diff_deg = Ok t /\
    safety_margin s = planned_dv s * 0.22 /\
    safety_margin t = planned_dv t * 0.09 /\
    forall v, safety_margin (set_search_acquisition v s) = safety_margin s /\
              safety_margin (set_search_acquisition v t) = safety_margin t.
Proof.
  intros Hc Ht.
  exists (standard_breakdown chaser target separation_km inclination_diff_deg),
         (tni_breakdown chaser target separation_km inclination_diff_deg).
  split; [now apply standard_rendezvous_defined | ].
  split; [now apply tni_rendezvous_defined | ].
  repeat split.
Qed.

Lemma safety_margin_of_returned_breakdowns_witness :
  exists s t,
    calculate_standard_rendezvous (orbit_at 395) (orbit_at 400) 50 0 = Ok s /\
    calculate_tni_rendezvous (orbit_at 395) (orbit_at 400) 50 0 = Ok t /\
    safety_margin s = planned_dv s * 0.22 /\
    safety_margin t = planned_dv t * 0.09 /\
    forall v, safety_margin (set_search_acquisition v s) = safety_margin s /\
              safety_margin (set_search_acquisition v t) = safety_margin t.
Proof.
  apply (safety_margin_of_returned_breakdowns (orbit_at 395) (orbit_at 400) 50 0);
    unfold radius_km, orbit_at; cbn; lra.
Defined.

(** C3, as stated, fails: the constructor takes the safety margin as an
    argument of its own, and after [b.search_acquisition = 0] on a returned
    breakdown the margin is no longer 0.22 times the other six. *)
Lemma safety_margin_is_a_stored_field :
  (let b := mkDeltaVBreakdown 1 0 0 0 0 0 5 in
   safety_margin b <> planned_dv b * 0.22 /\
   safety_margin b <> planned_dv b * 0.09) /\
  (exists s,
     calculate_standard_rendezvous (orbit_at 395) (orbit_at 400) 50 0 = Ok s /\
     safety_margin (set_search_acquisition 0 s) <>
     planned_dv (set_search_acquisition 0 s) * 0.22).
Proof.
  split.
  - unfold planned_dv. cbn. split; lra.
  - exists (standard_breakdown (orbit_at 395) (orbit_at 400) 50 0). split.
    + apply standard_rendezvous_defined; unfold radius_km, orbit_at; cbn; lra.
    + unfold planned_dv, set_search_acquisition, standard_breakdown. cbn. lra.
Qed.

Lemma plane_change_cost_nonneg (target : OrbitParams) (inc : R) :
  0 <= inc <= 360 -> 0 <= plane_change_cost target inc.
Proof.
  intros [Hlo Hhi]. unfold plane_change_cost.
  destruct (Rlt_dec 0 inc) as [Hi | Hi]; [ | lra ].
  unfold plane_change, Py.radians.
  pose proof (orbital_speed_nonneg target) as Hv. pose proof PI_RGT_0 as Hpi.
  assert (Hs : 0 <= sin (inc * (PI / 180) / 2)).
  { apply sin_ge_0; nra. }
  apply Rmult_le_pos; [lra | assumption].
Qed.

Lemma tni_total_below_standard
    (chaser target : OrbitParams) (separation_km inclination_diff_deg : R) :
  0 <= separation_km -> 0 <= inclination_diff_deg <= 360 ->
  total (tni_breakdown chaser target separation_km inclination_diff_deg) <
  total (standard_breakdown chaser target separation_km inclination_diff_deg).
Proof.
  intros Hsep Hinc.
  rewrite !total_unfold. unfold planned_dv, standard_breakdown, tni_breakdown.
  cbn [search_acquisition hohmann_transfer_dv plane_change_dv
       approach_corrections final_approach docking_maneuver safety_margin].
  pose proof (hohmann_cost_nonneg chaser target) as Hh.
  pose proof (plane_change_cost_nonneg target inclination_diff_deg Hinc) as Hp.
  pose proof (log10_max_nonneg separation_km) as Hl.
  fold (log10_separation separation_km) in Hl.
  unfold plane_change_cost in *.
  destruct (Rlt_dec 0 inclination_diff_deg); lra.
Qed.

(** C1, as the code has it: for positive radii, a non-negative separation
    and an inclination difference between 0 and 360 degrees, both breakdowns
    are defined and the TNI total is at most the standard total. *)
Theorem tni_total_at_most_standard
    (chaser target : OrbitParams) (separation_km inclination_diff_deg : R) :
  0 < radius_km chaser -> 0 < radius_km target ->
  0 <= separation_km -> 0 <= inclination_diff_deg <= 360 ->
  exists s t,
    calculate_standard_rendezvous chaser target separation_km inclination_diff_deg = Ok s /\
    calculate_tni_rendezvous chaser target separation_km inclination_diff_deg = Ok t /\
    total t <= total s /\ 0 <= total s - total t.
Proof.
  intros Hc Ht Hsep Hinc.
  exists (standard_breakdown chaser target separation_km inclination_diff_deg),
         (tni_breakdown chaser target separation_km inclination_diff_deg).
  split; [now apply standard_rendezvous_defined | ].
  split; [now apply tni_rendezvous_defined | ].
  pose proof (tni_total_below_standard chaser target separation_km
                inclination_diff_deg Hsep Hinc) as Hlt.
  split; lra.
Qed.

Lemma tni_total_at_most_standard_witness :
  exists s t,
    calculate_standard_rendezvous (mkOrbitParams 400 28.5) (mkOrbitParams 400 29.5) 100 1 = Ok s /\
    calculate_tni_rendezvous (mkOrbitParams 400 28.5) (mkOrbitParams 400 29.5) 100 1 = Ok t /\
    total t <= total s /\ 0 <= total s - total t.
Proof.
  apply (tni_total_at_most_standard (mkOrbitParams 400 28.5) (mkOrbitParams 400 29.5) 100 1);
    unfold radius_km; cbn; lra.
Defined.

(** ** Numeric bounds on square roots *)

Lemma sqrt_between (a b x : R) :
  0 <= a -> 0 <= b -> a * a < x -> x < b * b -> a < sqrt x < b.
Proof.
  intros Ha Hb Hlo Hhi.
  split.
  - apply Rle_lt_trans with (sqrt (a * a)).
    + rewrite sqrt_square by assumption. lra.
    + apply sqrt_lt_1; nra.
  - apply Rlt_le_trans with (sqrt (b * b)).
    + apply sqrt_lt_1; nra.
    + rewrite sqrt_square by assumption. lra.
Qed.

Lemma first_burn_6766_6771 : 1.41735 < first_burn 6766 6771 < 1.41738.
Proof.
  unfold first_burn, MU_EARTH.
  assert (Hv : 7.67543310 < sqrt (398600.4418 / 6766) < 7.67543311)
    by (apply sqrt_between; lra).
  assert (Ht : 7.67685046 < sqrt (398600.4418 * (2 / 6766 - 2 / (6766 + 6771))) < 7.67685047)
    by (apply sqrt_between; lra).
  rewrite Rabs_pos_eq by lra. lra.
Qed.

Lemma second_burn_6766_6771 : 1.41708 < second_burn 6766 6771 < 1.41711.
Proof.
  unfold second_burn, MU_EARTH.
  assert (Hv : 7.67259864 < sqrt (398600.4418 / 6771) < 7.67259865)
    by (apply sqrt_between; lra).
  assert (Ht : 7.67118154 < sqrt (398600.4418 * (2 / 6771 - 2 / (6766 + 6771))) < 7.67118155)
    by (apply sqrt_between; lra).
  rewrite Rabs_pos_eq by lra. lra.
Qed.

Lemma equal_radius_first_burn (r : R) : 0 < r -> first_burn r r = 0.
Proof.
  intros Hr. unfold first_burn.
  replace (MU_EARTH * (2 / r - 2 / (r + r))) with (MU_EARTH / r) by (field; lra).
  rewrite Rminus_diag, Rabs_R0. ring.
Qed.

Lemma equal_radius_second_burn (r : R) : 0 < r -> second_burn r r = 0.
Proof.
  intros Hr. rewrite <- first_burn_swap. now apply equal_radius_first_burn.
Qed.

Lemma log10_separation_100 : log10_separation 100 = 2.
Proof.
  unfold log10_separation, Py.max.
  destruct (Rlt_dec 1 100) as [_ | N]; [ | lra ].
  replace 100 with (10 * 10) by lra.
  rewrite ln_mult by lra. pose proof ln10_pos. field. lra.
Qed.

Lemma orbital_speed_400 : 1000 <= orbital_speed (orbit_at 400).
Proof.
  unfold orbital_speed, radius_km, orbit_at. cbn.
  assert (H : 1 <= sqrt (398600.4418 / (6371 + 400))).
  { rewrite <- sqrt_1 at 1. apply sqrt_le_1; lra. }
  lra.
Qed.

Lemma plane_change_540 (v : R) : plane_change v 540 = - (2 * v).
Proof.
  unfold plane_change, Py.radians.
  replace (540 * (PI / 180) / 2) with (3 * (PI / 2)) by field.
  rewrite sin_3PI2. ring.
Qed.

(** C1, as stated, fails: with an inclination difference of 540 degrees the
    plane-change cost is negative and the TNI total exceeds the standard
    total. *)
Lemma tni_costs_more_at_540_degrees :
  exists s t,
    calculate_standard_rendezvous (orbit_at 400) (orbit_at 400) 100 540 = Ok s /\
    calculate_tni_rendezvous (orbit_at 400) (orbit_at 400) 100 540 = Ok t /\
    0 <= 100 /\ 0 <= 540 /\
    total s < total t.
Proof.
  exists (standard_breakdown (orbit_at 400) (orbit_at 400) 100 540),
         (tni_breakdown (orbit_at 400) (orbit_at 400) 100 540).
  assert (Hr : 0 < radius_km (orbit_at 400)) by (unfold radius_km, orbit_at; cbn; lra).
  split; [now apply standard_rendezvous_defined | ].
  split; [now apply tni_rendezvous_defined | ].
  split; [lra | ]. split; [lra | ].
  rewrite !total_unfold.
  unfold planned_dv, standard_breakdown, tni_breakdown, plane_change_cost, hohmann_cost.
  cbn [search_acquisition hohmann_transfer_dv plane_change_dv
       approach_corrections final_approach docking_maneuver safety_margin].
  rewrite equal_radius_first_burn, equal_radius_second_burn by assumption.
  rewrite log10_separation_100.
  destruct (Rlt_dec 0 540) as [_ | N]; [ | lra ].
  rewrite plane_change_540. pose proof orbital_speed_400. lra.
Qed.

(** C8, as the code has it: in the LEO depot scenario both burns are
    strictly positive, about 1.417 m/s each, their sum lies between 2.834
    and 2.835 m/s, and the standard total strictly exceeds the TNI total. *)
Theorem leo_depot_scenario :
  exists dv1 dv2 s t,
    radius_km (orbit_at 395) = 6766 /\ radius_km (orbit_at 400) = 6771 /\
    hohmann_transfer 6766 6771 = Ok (dv1, dv2) /\
    1.417 < dv1 < 1.418 /\ 1.417 < dv2 < 1.418 /\
    2.834 < dv1 + dv2 < 2.835 /\
    calculate_standard_rendezvous (orbit_at 395) (orbit_at 400) 50 0 = Ok s /\
    calculate_tni_rendezvous (orbit_at 395) (orbit_at 400) 50 0 = Ok t /\
    total t < total s.
Proof.
  exists (first_burn 6766 6771), (second_burn 6766 6771),
         (standard_breakdown (orbit_at 395) (orbit_at 400) 50 0),
         (tni_breakdown (orbit_at 395) (orbit_at 400) 50 0).
  pose proof first_burn_6766_6771. pose proof second_burn_6766_6771.
  assert (H395 : radius_km (orbit_at 395) = 6766) by (unfold radius_km, orbit_at; cbn; lra).
  assert (H400 : radius_km (orbit_at 400) = 6771) by (unfold radius_km, orbit_at; cbn; lra).
  split; [assumption | ]. split; [assumption | ].
  split; [apply hohmann_transfer_defined; lra | ].
  split; [lra | ]. split; [lra | ]. split; [lra | ].
  split; [apply standard_rendezvous_defined; lra | ].
  split; [apply tni_rendezvous_defined; lra | ].
  apply tni_total_below_standard; lra.
Qed.

(** C8, as stated, fails: the two burns of [hohmann_transfer(6766, 6771)]
    add up to more than 2.8 m/s, so their sum is not under 1 m/s. *)
Lemma leo_depot_burns_exceed_one :
  exists dv1 dv2,
    hohmann_transfer 6766 6771 = Ok (dv1, dv2) /\
    2.8 < dv1 + dv2 /\ ~ (dv1 + dv2 < 1).
Proof.
  exists (first_burn 6766 6771), (second_burn 6766 6771).
  pose proof first_burn_6766_6771. pose proof second_burn_6766_6771.
  split; [apply hohmann_transfer_defined; lra | ]. split; lra.
Qed.

(** ** Phasing maneuver *)

Lemma phasing_maneuver_defined (r_km phase_angle_deg : R) :
  5 < r_km ->
  phasing_maneuver r_km phase_angle_deg =
  Ok (first_burn r_km (r_km - 5) + first_burn (r_km - 5) r_km).
Proof.
  intros Hr. unfold phasing_maneuver.
  rewrite !hohmann_transfer_defined by lra. reflexivity.
Qed.

Lemma phasing_cycle_defined (r_km : R) :
  5 < r_km ->
  phasing_cycle r_km =
  Ok ((first_burn r_km (r_km - 5) + second_burn r_km (r_km - 5)) +
      (first_burn (r_km - 5) r_km + second_burn (r_km - 5) r_km)).
Proof.
  intros Hr. unfold phasing_cycle.
  rewrite !hohmann_transfer_defined by lra. reflexivity.
Qed.

(** What the code returns is the cost of one transfer, half the cycle. *)
Lemma phasing_maneuver_is_half_cycle (r_km phase_angle_deg : R) :
  5 < r_km ->
  exists p c,
    phasing_maneuver r_km phase_angle_deg = Ok p /\
    phasing_cycle r_km = Ok c /\
    c = 2 * p.
Proof.
  intros Hr. rewrite phasing_maneuver_defined, phasing_cycle_defined by assumption.
  do 2 eexists. split; [reflexivity | ]. split; [reflexivity | ].
  rewrite (first_burn_swap r_km (r_km - 5)), <- (first_burn_swap (r_km - 5) r_km).
  ring.
Qed.

(** C4 at [r_km = 6771]: the code returns the two first burns, about
    2.834 m/s, where the drop-then-raise cycle of the claim (both transfers
    in full) costs twice as much; the phase angle plays no part. *)
Theorem phasing_maneuver_omits_second_burns :
  exists p c,
    phasing_maneuver 6771 30 = Ok p /\
    phasing_cycle 6771 = Ok c /\
    2.834 < p < 2.835 /\
    c = 2 * p /\ p <> c /\
    forall phase_angle_deg, phasing_maneuver 6771 phase_angle_deg = Ok p.
Proof.
  exists (first_burn 6771 (6771 - 5) + first_burn (6771 - 5) 6771),
         (2 * (first_burn 6771 (6771 - 5) + first_burn (6771 - 5) 6771)).
  assert (Hb : 2.834 < first_burn 6771 (6771 - 5) + first_burn (6771 - 5) 6771 < 2.835).
  { replace (6771 - 5) with 6766 by lra. rewrite (first_burn_swap 6766 6771).
    pose proof first_burn_6766_6771. pose proof second_burn_6766_6771. lra. }
  split; [apply phasing_maneuver_defined; lra | ].
  split.
  { destruct (phasing_maneuver_is_half_cycle 6771 30) as (p & c & Hp & Hc & E); [lra | ].
    rewrite phasing_maneuver_defined in Hp by lra. injection Hp as <-.
    rewrite Hc, E. reflexivity. }
  split; [exact Hb | ]. split; [reflexivity | ]. split; [lra | ].
  intros a. apply phasing_maneuver_defined; lra.
Qed.

(** ** Mission-phase simulator *)

Lemma dispatch_cases (t rnd1 rnd2 : R) (s : Sim.TNISimulator) :
  (t < 150 /\
   Sim.dispatch t rnd1 rnd2 s =
   Sim.mkPhaseVars Sim.ASCENT ((t / 150) * 200) false 0 25.0 0.15
     (Sim.dv_saved_mps s) (Sim.is_running s)) \/
  (150 <= t < 170 /\
   Sim.dispatch t rnd1 rnd2 s =
   Sim.mkPhaseVars Sim.TNI_ACTIVATION (Sim.altitude_km s) true
     (Z.min 10 (Py.int ((t - 150) * 0.5)))
     (Py.max 0.03 (20 * exp (- (t - 150) / 9)))
     (Py.max 0.003 (0.15 * exp (- (t - 150) / 7)))
     (Sim.dv_saved_mps s) (Sim.is_running s)) \/
  (170 <= t < 290 /\
   Sim.dispatch t rnd1 rnd2 s =
   Sim.mkPhaseVars Sim.ORBITAL_INSERTION (200 + (t - 170) * 0.91)
     (Sim.is_tni_active s) (Sim.active_links s)
     (0.03 + rnd1 * 0.02) (0.002 + rnd2 * 0.001)
     (45 * (1 - (0.03 + rnd1 * 0.02) / 25)) (Sim.is_running s)) \/
  (290 <= t < 310 /\
   Sim.dispatch t rnd1 rnd2 s =
   Sim.mkPhaseVars Sim.TNI_DISCONNECT (Sim.altitude_km s) (Sim.is_tni_active s)
     (Z.max 0 (10 - Py.int ((t - 290) * 0.5)))
     (Sim.position_error_m s) (Sim.velocity_error_mps s) (Sim.dv_saved_mps s)
     (Sim.is_running s)) \/
  (310 <= t /\
   Sim.dispatch t rnd1 rnd2 s =
   Sim.mkPhaseVars Sim.NOMINAL_ORBIT (Sim.altitude_km s) (Sim.is_tni_active s)
     (Sim.active_links s) (Sim.position_error_m s) (Sim.velocity_error_mps s)
     (Sim.dv_saved_mps s) false).
Proof.
  unfold Sim.dispatch, Sim.phase_end, Sim.TIME_PHASES, Sim.lt_bound.
  destruct (Rlt_dec t 150); [left; split; [lra | reflexivity] | right].
  destruct (Rlt_dec t 170); [left; split; [lra | reflexivity] | right].
  destruct (Rlt_dec t 290); [left; split; [lra | reflexivity] | right].
  destruct (Rlt_dec t 310); [left; split; [lra | reflexivity] | right].
  split; [lra | reflexivity].
Qed.

Lemma update_paused (dt rnd1 rnd2 : R) (s : Sim.TNISimulator) :
  Sim.is_running s = false -> Sim._update_simulation_state dt rnd1 rnd2 s = s.
Proof.
  intros H. unfold Sim._update_simulation_state. now rewrite H.
Qed.

(** The fields an update assigns, read off the dispatch at the new time. *)
Lemma update_running (dt rnd1 rnd2 : R) (s : Sim.TNISimulator) :
  Sim.is_running s = true ->
  let t := Sim.time_s s + dt * Sim.current_speed_multiplier s in
  let pv := Sim.dispatch t rnd1 rnd2 s in
  let s' := Sim._update_simulation_state dt rnd1 rnd2 s in
  Sim.time_s s' = t /\
  Sim.is_running s' = Sim.pv_running pv /\
  Sim.current_phase s' = Sim.pv_phase pv /\
  Sim.altitude_km s' = Sim.pv_altitude pv /\
  Sim.position_error_m s' = Sim.pv_pos_err pv /\
  Sim.velocity_error_mps s' = Sim.pv_vel_err pv /\
  Sim.dv_saved_mps s' = Sim.pv_dv_saved pv /\
  Sim.active_links s' = Sim.pv_links pv /\
  Sim.is_tni_active s' = Sim.pv_tni_active pv /\
  Sim.current_speed_multiplier s' = Sim.current_speed_multiplier s.
Proof.
  intros H. unfold Sim._update_simulation_state. rewrite H. cbn.
  repeat split.
Qed.

Lemma int_of_5 : Py.int ((160 - 150) * 0.5) = 5%Z.
Proof.
  unfold Py.int. destruct (Rle_dec 0 ((160 - 150) * 0.5)) as [_ | N]; [ | lra ].
  symmetry. apply Int_part_spec. split; lra.
Qed.

Lemma int_of_0 : Py.int ((150 - 150) * 0.5) = 0%Z.
Proof.
  unfold Py.int. destruct (Rle_dec 0 ((150 - 150) * 0.5)) as [_ | N]; [ | lra ].
  symmetry. apply Int_part_spec. split; lra.
Qed.

Lemma advance_all_snoc (s : Sim.TNISimulator) (cs : list Sim.Call) (c : Sim.Call) :
  Sim.advance_all s (cs ++ [c]) = Sim.advance (Sim.advance_all s cs) c.
Proof. unfold Sim.advance_all. now rewrite fold_left_app. Qed.

Lemma elapsed_snoc (cs : list Sim.Call) (c : Sim.Call) :
  Sim.elapsed (cs ++ [c]) = Sim.elapsed cs + Sim.call_dt c.
Proof.
  unfold Sim.elapsed. induction cs as [ | c' cs IH]; cbn.
  - lra.
  - cbn in IH. rewrite IH. lra.
Qed.

Lemma elapsed_nonneg (cs : list Sim.Call) :
  Forall (fun c => 0 <= Sim.call_dt c) cs -> 0 <= Sim.elapsed cs.
Proof.
  induction 1 as [ | c cs Hc _ IH]; cbn; [lra | ].
  unfold Sim.elapsed in IH. lra.
Qed.

(** While the simulator runs at speed 1x its clock is the cumulative [dt];
    once it has stopped, the clock stays where it passed 310. *)
Lemma clock_follows_elapsed (cs : list Sim.Call) :
  Forall (fun c => 0 <= Sim.call_dt c) cs ->
  let s := Sim.advance_all Sim.started cs in
  Sim.current_speed_multiplier s = 1 /\
  ((Sim.is_running s = true /\ Sim.time_s s = Sim.elapsed cs /\ Sim.time_s s < 310) \/
   (Sim.is_running s = false /\ Sim.current_phase s = Sim.NOMINAL_ORBIT /\
    310 <= Sim.time_s s <= Sim.elapsed cs)).
Proof.
  induction cs as [ | c cs IH] using rev_ind; intros Hall.
  - cbn. split; [lra | left]. split; [reflexivity | ]. split; lra.
  - apply Forall_app in Hall. destruct Hall as [Hcs Hc].
    apply Forall_inv in Hc. specialize (IH Hcs). cbv zeta in IH |- *.
    rewrite advance_all_snoc, elapsed_snoc.
    set (s := Sim.advance_all Sim.started cs) in *.
    destruct IH as [Hm [(Hrun & Ht & Hlt) | (Hrun & Hph & Hge)]].
    + unfold Sim.advance.
      destruct (update_running (Sim.call_dt c) (Sim.call_rnd1 c) (Sim.call_rnd2 c) s Hrun)
        as (Et & Er & Ep & _ & _ & _ & _ & _ & _ & Em).
      rewrite Hm, Rmult_1_r, Ht in Et, Er, Ep.
      rewrite Em, Et, Er, Ep. split; [assumption | ].
      destruct (dispatch_cases (Sim.elapsed cs + Sim.call_dt c) (Sim.call_rnd1 c)
                  (Sim.call_rnd2 c) s) as [(B & ->) | [(B & ->) | [(B & ->) | [(B & ->) | (B & ->)]]]];
        cbn [Sim.pv_running Sim.pv_phase];
        try (left; split; [assumption | split; [reflexivity | lra]]).
      right. split; [reflexivity | ]. split; [reflexivity | lra].
    + unfold Sim.advance. rewrite update_paused by assumption.
      split; [assumption | right]. split; [assumption | ]. split; [assumption | lra].
Qed.

(** C2, as the code has it: after at least one update from the started
    simulator, with non-negative steps, the phase is [ASCENT] while the
    cumulative [dt] is below 150; at exactly 150 it is already
    [TNI_ACTIVATION] (with no link yet); at 160 it is [TNI_ACTIVATION] with 5
    active links; and from 310 on it is [NOMINAL_ORBIT] with [is_running]
    false. *)
Theorem phase_by_cumulative_dt (cs : list Sim.Call) :
  cs <> [] ->
  Forall (fun c => 0 <= Sim.call_dt c) cs ->
  let s := Sim.advance_all Sim.started cs in
  (Sim.elapsed cs < 150 ->
     Sim.current_phase s = Sim.ASCENT /\ Sim.is_running s = true) /\
  (Sim.elapsed cs = 150 ->
     Sim.current_phase s = Sim.TNI_ACTIVATION /\ Sim.active_links s = 0%Z) /\
  (Sim.elapsed cs = 160 ->
     Sim.current_phase s = Sim.TNI_ACTIVATION /\ Sim.active_links s = 5%Z /\
     (0 <= Sim.active_links s <= 10)%Z) /\
  (310 <= Sim.elapsed cs ->
     Sim.current_phase s = Sim.NOMINAL_ORBIT /\ Sim.is_running s = false).
Proof.
  intros Hne Hall.
  destruct (exists_last Hne) as (cs' & c & ->). clear Hne.
  apply Forall_app in Hall. destruct Hall as [Hcs Hc]. apply Forall_inv in Hc.
  pose proof (clock_follows_elapsed cs' Hcs) as Hprev. cbv zeta in Hprev |- *.
  pose proof (elapsed_nonneg cs' Hcs) as Hpos.
  rewrite advance_all_snoc, elapsed_snoc.
  set (s := Sim.advance_all Sim.started cs') in *.
  destruct Hprev as [Hm [(Hrun & Ht & Hlt) | (Hrun & Hph & Hge)]].
  - unfold Sim.advance.
    destruct (update_running (Sim.call_dt c) (Sim.call_rnd1 c) (Sim.call_rnd2 c) s Hrun)
      as (_ & Er & Ep & _ & _ & _ & _ & El & _ & _).
    rewrite Hm, Rmult_1_r, Ht in Er, Ep, El. rewrite Er, Ep, El.
    destruct (dispatch_cases (Sim.elapsed cs' + Sim.call_dt c) (Sim.call_rnd1 c)
                (Sim.call_rnd2 c) s) as [(B & ->) | [(B & ->) | [(B & ->) | [(B & ->) | (B & ->)]]]];
      cbn [Sim.pv_running Sim.pv_phase Sim.pv_links];
      (split; [intros E | split; [intros E | split; [intros E | intros E]]]);
      try lra; try (split; [reflexivity | assumption]); try (split; reflexivity).
    + rewrite E, int_of_0. split; reflexivity.
    + rewrite E, int_of_5. repeat split; lia.
  - unfold Sim.advance. rewrite update_paused by assumption.
    split; [intros E; lra | ]. split; [intros E; lra | ]. split; [intros E; lra | ].
    intros _. split; assumption.
Qed.

Lemma phase_by_cumulative_dt_witness :
  let cs := [Sim.mkCall 100 0 0; Sim.mkCall 60 0 0] in
  let s := Sim.advance_all Sim.started cs in
  Sim.elapsed cs = 160 /\
  Sim.current_phase s = Sim.TNI_ACTIVATION /\ Sim.active_links s = 5%Z /\
  (0 <= Sim.active_links s <= 10)%Z.
Proof.
  cbv zeta.
  assert (E : Sim.elapsed [Sim.mkCall 100 0 0; Sim.mkCall 60 0 0] = 160)
    by (cbn; lra).
  split; [exact E | ].
  apply (phase_by_cumulative_dt [Sim.mkCall 100 0 0; Sim.mkCall 60 0 0]).
  - discriminate.
  - repeat constructor; cbn; lra.
  - exact E.
Defined.

(** C2, as stated, fails: one update with [dt = 150] from the started
    simulator brings the clock to 150, where the phase is [TNI_ACTIVATION]
    and not [ASCENT]. *)
Lemma phase_at_150_is_not_ascent :
  let cs := [Sim.mkCall 150 0 0] in
  let s := Sim.advance_all Sim.started cs in
  Sim.elapsed cs = 150 /\ Sim.time_s s = 150 /\
  Sim.current_phase s = Sim.TNI_ACTIVATION /\
  Sim.current_phase s <> Sim.ASCENT.
Proof.
  cbv zeta.
  assert (Hrun : Sim.is_running Sim.started = true) by reflexivity.
  destruct (update_running 150 0 0 Sim.started Hrun) as (Et & _ & Ep & _).
  assert (T : Sim.time_s Sim.started + 150 * Sim.current_speed_multiplier Sim.started = 150)
    by (cbn; lra).
  rewrite T in Et, Ep.
  destruct (dispatch_cases 150 0 0 Sim.started)
    as [(B & _) | [(B & E) | [(B & _) | [(B & _) | (B & _)]]]]; try lra.
  rewrite E in Ep. cbn [Sim.pv_phase] in Ep.
  change (Sim.advance_all Sim.started [Sim.mkCall 150 0 0])
    with (Sim._update_simulation_state 150 0 0 Sim.started).
  split; [cbn; lra | ]. split; [exact Et | ]. split; [exact Ep | ].
  rewrite Ep. discriminate.
Qed.

(** *** Zero-length steps *)

Lemma observe_eq (s s' : Sim.TNISimulator) :
  Sim.time_s s' = Sim.time_s s ->
  Sim.current_phase s' = Sim.current_phase s ->
  Sim.altitude_km s' = Sim.altitude_km s ->
  Sim.position_error_m s' = Sim.position_error_m s ->
  Sim.velocity_error_mps s' = Sim.velocity_error_mps s ->
  Sim.dv_saved_mps s' = Sim.dv_saved_mps s ->
  Sim.active_links s' = Sim.active_links s ->
  Sim.observe s' = Sim.observe s.
Proof.
  intros. unfold Sim.observe. congruence.
Qed.

Lemma fresh_init : fresh Sim.__init__.
Proof. unfold fresh. cbn. repeat split; lra. Qed.

(** [dispatch] reads the state only through the fields it carries over. *)
Lemma dispatch_same_fields (t rnd1 rnd2 : R) (s s' : Sim.TNISimulator) :
  Sim.altitude_km s' = Sim.altitude_km s ->
  Sim.position_error_m s' = Sim.position_error_m s ->
  Sim.velocity_error_mps s' = Sim.velocity_error_mps s ->
  Sim.dv_saved_mps s' = Sim.dv_saved_mps s ->
  Sim.active_links s' = Sim.active_links s ->
  Sim.is_tni_active s' = Sim.is_tni_active s ->
  Sim.is_running s' = Sim.is_running s ->
  Sim.dispatch t rnd1 rnd2 s' = Sim.dispatch t rnd1 rnd2 s.
Proof.
  intros Ha Hp Hv Hd Hl Hi Hr. unfold Sim.dispatch.
  rewrite Ha, Hp, Hv, Hd, Hl, Hi, Hr. reflexivity.
Qed.

Lemma settled_same_fields (s s' : Sim.TNISimulator) :
  Sim.time_s s' = Sim.time_s s ->
  Sim.current_phase s' = Sim.current_phase s ->
  Sim.altitude_km s' = Sim.altitude_km s ->
  Sim.position_error_m s' = Sim.position_error_m s ->
  Sim.velocity_error_mps s' = Sim.velocity_error_mps s ->
  Sim.dv_saved_mps s' = Sim.dv_saved_mps s ->
  Sim.active_links s' = Sim.active_links s ->
  Sim.is_tni_active s' = Sim.is_tni_active s ->
  settled s -> settled s'.
Proof.
  intros Ht Hph Ha Hp Hv Hd Hl Hi (rnd1 & rnd2 & H).
  exists rnd1, rnd2. unfold agrees_with_dispatch in *.
  rewrite Ht, Hph, Ha, Hp, Hv, Hd, Hl, Hi.
  destruct (dispatch_cases (Sim.time_s s) rnd1 rnd2 s)
    as [(B & E) | [(B & E) | [(B & E) | [(B & E) | (B & E)]]]];
  destruct (dispatch_cases (Sim.time_s s) rnd1 rnd2 s')
    as [(B' & E') | [(B' & E') | [(B' & E') | [(B' & E') | (B' & E')]]]];
  try lra; rewrite E in H; rewrite E'; cbn in H |- *;
  rewrite ?Ha, ?Hp, ?Hv, ?Hd, ?Hl, ?Hi; exact H.
Qed.

Lemma fresh_same_fields (s s' : Sim.TNISimulator) :
  Sim.time_s s' = Sim.time_s s ->
  Sim.current_phase s' = Sim.current_phase s ->
  Sim.altitude_km s' = Sim.altitude_km s ->
  Sim.position_error_m s' = Sim.position_error_m s ->
  Sim.velocity_error_mps s' = Sim.velocity_error_mps s ->
  Sim.active_links s' = Sim.active_links s ->
  Sim.is_tni_active s' = Sim.is_tni_active s ->
  fresh s -> fresh s'.
Proof.
  unfold fresh. intros -> -> -> -> -> -> ->. trivial.
Qed.

(** An update of a running simulator leaves a state on which the same
    dispatch, with the same draws, changes nothing. *)
Lemma update_settles (dt rnd1 rnd2 : R) (s : Sim.TNISimulator) :
  Sim.is_running s = true ->
  settled (Sim._update_simulation_state dt rnd1 rnd2 s).
Proof.
  intros Hrun. exists rnd1, rnd2. unfold agrees_with_dispatch.
  destruct (update_running dt rnd1 rnd2 s Hrun)
    as (Et & _ & Ep & Ea & Epos & Ev & Ed & El & Ei & _).
  set (s' := Sim._update_simulation_state dt rnd1 rnd2 s) in *.
  set (t := Sim.time_s s + dt * Sim.current_speed_multiplier s) in *.
  rewrite Et, Ep, Ea, Epos, Ev, Ed, El, Ei.
  destruct (dispatch_cases t rnd1 rnd2 s)
    as [(B & E) | [(B & E) | [(B & E) | [(B & E) | (B & E)]]]];
  destruct (dispatch_cases t rnd1 rnd2 s')
    as [(B' & E') | [(B' & E') | [(B' & E') | [(B' & E') | (B' & E')]]]];
  try lra; rewrite E in *; rewrite E'; cbn in *;
  rewrite ?Ea, ?Epos, ?Ev, ?Ed, ?El, ?Ei; repeat split.
Qed.

Lemma reachable_fresh_or_settled (s : Sim.TNISimulator) :
  Sim.reachable s -> fresh s \/ settled s.
Proof.
  induction 1 as [ | s s' _ IH Hstep].
  - left. apply fresh_init.
  - destruct Hstep as [s | s | s direction _ | s dt rnd1 rnd2 _ _ _].
    + destruct IH as [F | S]; [left | right].
      * now apply (fresh_same_fields s).
      * now apply (settled_same_fields s).
    + left. apply (fresh_same_fields Sim.__init__); try reflexivity. apply fresh_init.
    + unfold Sim._handle_speed_change.
      destruct (_ && _)%bool; [ | exact IH ].
      destruct IH as [F | S]; [left | right].
      * now apply (fresh_same_fields s).
      * now apply (settled_same_fields s).
    + destruct (Sim.is_running s) eqn:Hrun.
      * right. now apply update_settles.
      * now rewrite update_paused.
Qed.

(** C9, as the code has it: on a reachable state an update with [dt = 0]
    keeps the clock, the altitude and the link count; it keeps every
    observable field when the simulator is paused, or when the phase is past
    [PRE-LAUNCH] and the clock is outside the orbital-insertion window
    [[170, 290)].  A running simulator still in [PRE-LAUNCH] moves to
    [ASCENT], and inside the window the position error, the velocity error
    and the saved delta-v are drawn anew. *)
Theorem zero_step_on_reachable_state (s : Sim.TNISimulator) (rnd1 rnd2 : R) :
  Sim.reachable s ->
  let s' := Sim._update_simulation_state 0 rnd1 rnd2 s in
  Sim.time_s s' = Sim.time_s s /\
  Sim.altitude_km s' = Sim.altitude_km s /\
  Sim.active_links s' = Sim.active_links s /\
  (Sim.current_phase s <> Sim.PRE_LAUNCH ->
     Sim.current_phase s' = Sim.current_phase s) /\
  (Sim.is_running s = false \/
   (Sim.current_phase s <> Sim.PRE_LAUNCH /\ ~ (170 <= Sim.time_s s < 290)) ->
     Sim.observe s' = Sim.observe s) /\
  (Sim.is_running s = true -> Sim.current_phase s = Sim.PRE_LAUNCH ->
     Sim.current_phase s' = Sim.ASCENT) /\
  (Sim.is_running s = true -> 170 <= Sim.time_s s < 290 ->
     Sim.position_error_m s' = 0.03 + rnd1 * 0.02 /\
     Sim.velocity_error_mps s' = 0.002 + rnd2 * 0.001 /\
     Sim.dv_saved_mps s' = 45 * (1 - Sim.position_error_m s' / 25)).
Proof.
  intros Hreach. cbv zeta.
  destruct (Sim.is_running s) eqn:Hrun.
  2:{ rewrite update_paused by assumption.
      repeat split; try reflexivity; discriminate. }
  destruct (update_running 0 rnd1 rnd2 s Hrun)
    as (Et & _ & Ep & Ea & Epos & Ev & Ed & El & _ & _).
  set (s' := Sim._update_simulation_state 0 rnd1 rnd2 s) in *.
  replace (Sim.time_s s + 0 * Sim.current_speed_multiplier s)
    with (Sim.time_s s) in * by ring.
  destruct (reachable_fresh_or_settled s Hreach)
    as [(Fp & Ft & Fa & Fpos & Fv & Fl & Fi) | (r1 & r2 & S)].
  - (* still in PRE-LAUNCH at t = 0: the ascent branch *)
    destruct (dispatch_cases (Sim.time_s s) rnd1 rnd2 s)
      as [(B & E) | [(B & E) | [(B & E) | [(B & E) | (B & E)]]]]; try lra.
    rewrite E in *. cbn in Ep, Ea, Epos, Ev, Ed, El.
    repeat split; try congruence; try lra.
    intros [D | (N & _)]; [discriminate | contradiction].
  - unfold agrees_with_dispatch in S.
    destruct S as (Sp & Sa & Si & Sl & Spos & Sv & Sd).
    destruct (dispatch_cases (Sim.time_s s) r1 r2 s)
      as [(B & E) | [(B & E) | [(B & E) | [(B & E) | (B & E)]]]];
    destruct (dispatch_cases (Sim.time_s s) rnd1 rnd2 s)
      as [(B' & E') | [(B' & E') | [(B' & E') | [(B' & E') | (B' & E')]]]];
    try lra; rewrite E in *; rewrite E' in *;
    cbn in Sp, Sa, Si, Sl, Spos, Sv, Sd, Ep, Ea, Epos, Ev, Ed, El;
    (split; [exact Et | ]); (split; [congruence | ]); (split; [congruence | ]);
    (split; [intros _; congruence | ]);
    (split; [intros [D | (N & W)]; [discriminate | ];
               try (exfalso; apply W; lra);
               apply observe_eq; congruence | ]);
    (split; [intros _ P; congruence | ]);
    intros _ W; lra.
Qed.

Lemma zero_step_on_reachable_state_witness :
  let s := Sim.started in
  let s' := Sim._update_simulation_state 0 0 0 s in
  Sim.time_s s' = Sim.time_s s /\
  Sim.altitude_km s' = Sim.altitude_km s /\
  Sim.active_links s' = Sim.active_links s.
Proof.
  cbv zeta.
  assert (Hreach : Sim.reachable Sim.started).
  { apply (Sim.reach_step Sim.__init__); [apply Sim.reach_init | apply Sim.step_toggle]. }
  destruct (zero_step_on_reachable_state Sim.started 0 0 Hreach) as (Ht & Ha & Hl & _).
  split; [exact Ht | ]. split; [exact Ha | exact Hl].
Defined.

Lemma update_in_insertion_window (dt rnd1 rnd2 : R) (s : Sim.TNISimulator) :
  Sim.is_running s = true ->
  170 <= Sim.time_s s + dt * Sim.current_speed_multiplier s < 290 ->
  let s' := Sim._update_simulation_state dt rnd1 rnd2 s in
  Sim.time_s s' = Sim.time_s s + dt * Sim.current_speed_multiplier s /\
  Sim.is_running s' = true /\
  Sim.current_speed_multiplier s' = Sim.current_speed_multiplier s /\
  Sim.position_error_m s' = 0.03 + rnd1 * 0.02.
Proof.
  intros Hrun W. cbv zeta.
  destruct (update_running dt rnd1 rnd2 s Hrun)
    as (Et & Er & _ & _ & Epos & _ & _ & _ & _ & Em).
  destruct (dispatch_cases (Sim.time_s s + dt * Sim.current_speed_multiplier s) rnd1 rnd2 s)
    as [(B & E) | [(B & E) | [(B & E) | [(B & E) | (B & E)]]]]; try lra.
  rewrite E in *. cbn in Er, Epos. repeat split; congruence.
Qed.

(** C9, as stated, fails on two reachable states: the started simulator,
    which a zero-length update moves from [PRE-LAUNCH] to [ASCENT], and the
    state at [t = 200], where a zero-length update draws a new position
    error (0.04 m after 0.03 m for the draws 0 and 1/2). *)
Lemma zero_step_changes_observable_state :
  (Sim.reachable Sim.started /\
   Sim.observe (Sim._update_simulation_state 0 0 0 Sim.started) <>
   Sim.observe Sim.started) /\
  (let s := Sim._update_simulation_state 200 0 0 Sim.started in
   let s' := Sim._update_simulation_state 0 (1 / 2) (1 / 2) s in
   Sim.reachable s /\
   Sim.position_error_m s = 0.03 /\
   Sim.position_error_m s' = 0.04 /\
   Sim.observe s' <> Sim.observe s).
Proof.
  assert (Hreach : Sim.reachable Sim.started).
  { apply (Sim.reach_step Sim.__init__); [apply Sim.reach_init | apply Sim.step_toggle]. }
  assert (Hrun : Sim.is_running Sim.started = true) by reflexivity.
  assert (Hm : Sim.current_speed_multiplier Sim.started = 1) by (cbn; lra).
  assert (Ht : Sim.time_s Sim.started = 0) by (cbn; lra).
  split.
  - split; [exact Hreach | ].
    destruct (update_running 0 0 0 Sim.started Hrun) as (_ & _ & Ep & _).
    destruct (dispatch_cases (Sim.time_s Sim.started +
                              0 * Sim.current_speed_multiplier Sim.started) 0 0 Sim.started)
      as [(B & E) | [(B & E) | [(B & E) | [(B & E) | (B & E)]]]];
      try (rewrite Hm, Ht in B; lra).
    rewrite E in Ep. cbn [Sim.pv_phase] in Ep.
    intros Heq. apply (f_equal Sim.mp_phase) in Heq.
    unfold Sim.observe in Heq. cbn [Sim.mp_phase] in Heq.
    rewrite Ep in Heq. discriminate Heq.
  - cbv zeta.
    destruct (update_in_insertion_window 200 0 0 Sim.started Hrun)
      as (Et & Er & Em & Epos); [rewrite Hm, Ht; lra | ].
    set (s := Sim._update_simulation_state 200 0 0 Sim.started) in *.
    rewrite Hm, Ht in Et.
    destruct (update_in_insertion_window 0 (1 / 2) (1 / 2) s Er)
      as (_ & _ & _ & Epos'); [rewrite Em, Hm, Et; lra | ].
    split.
    { apply (Sim.reach_step Sim.started); [exact Hreach | ].
      apply Sim.step_update; lra. }
    split; [lra | ]. split; [lra | ].
    intros Heq. apply (f_equal Sim.mp_position_error_m) in Heq.
    unfold Sim.observe in Heq. cbn [Sim.mp_position_error_m] in Heq. lra.
Qed.

(** * Further properties of the code *)

(** ** Orbit model and maneuver formulas *)

(** X1: a transfer between two equal orbits costs nothing: both burns are
    zero. *)
Theorem hohmann_transfer_same_orbit (r_km : R) :
  0 < r_km -> hohmann_transfer r_km r_km = Ok (0, 0).
Proof.
  intros Hr. rewrite hohmann_transfer_defined by assumption.
  rewrite equal_radius_first_burn, equal_radius_second_burn by assumption.
  reflexivity.
Qed.

Lemma hohmann_transfer_same_orbit_witness : hohmann_transfer 6771 6771 = Ok (0, 0).
Proof. apply (hohmann_transfer_same_orbit 6771). lra. Defined.

Lemma first_burn_positive (r1 r2 : R) :
  0 < r1 -> 0 < r2 -> r1 <> r2 -> 0 < first_burn r1 r2.
Proof.
  intros H1 H2 Hne. unfold first_burn.
  assert (Hmu : 0 < MU_EARTH) by (unfold MU_EARTH; lra).
  pose proof (transfer_speed_arg_pos r1 r2 H1 H2) as T.
  assert (Hq : 0 < MU_EARTH / r1) by (apply Rdiv_lt_0_compat; lra).
  assert (Hd : sqrt (MU_EARTH * (2 / r1 - 2 / (r1 + r2))) - sqrt (MU_EARTH / r1) <> 0).
  { intros E. apply Rminus_diag_uniq in E. apply sqrt_inj in E; [ | nra | lra ].
    assert (G : (MU_EARTH * (2 / r1 - 2 / (r1 + r2)) - MU_EARTH / r1) * (r1 * (r1 + r2))
                = MU_EARTH * (r2 - r1)) by (field; lra).
    rewrite E, Rminus_diag, Rmult_0_l in G. apply Hne. nra. }
  pose proof (Rabs_pos_lt _ Hd). lra.
Qed.

(** X2: between two different orbits both burns of the transfer are
    strictly positive. *)
Theorem hohmann_transfer_burns_positive (r1_km r2_km : R) :
  0 < r1_km -> 0 < r2_km -> r1_km <> r2_km ->
  exists dv1 dv2,
    hohmann_transfer r1_km r2_km = Ok (dv1, dv2) /\ 0 < dv1 /\ 0 < dv2.
Proof.
  intros H1 H2 Hne.
  exists (first_burn r1_km r2_km), (second_burn r1_km r2_km).
  split; [now apply hohmann_transfer_defined | ]. split.
  - now apply first_burn_positive.
  - rewrite <- first_burn_swap. apply first_burn_positive; auto.
Qed.

Lemma hohmann_transfer_burns_positive_witness :
  exists dv1 dv2,
    hohmann_transfer 6721 6821 = Ok (dv1, dv2) /\ 0 < dv1 /\ 0 < dv2.
Proof. apply (hohmann_transfer_burns_positive 6721 6821); lra. Defined.

(** X3: above the centre of the Earth the orbital speed is defined,
    satisfies [v^2 * r = mu * 10^6] (speed in m/s, radius in km), and is
    strictly smaller on the higher of two orbits. *)
Theorem velocity_ms_decreases_with_altitude (low high : OrbitParams) :
  0 < radius_km low -> altitude_km low < altitude_km high ->
  exists v_low v_high,
    velocity_ms low = Ok v_low /\ velocity_ms high = Ok v_high /\
    v_low * v_low * radius_km low = 398600.4418 * 1000000 /\
    0 < v_high < v_low.
Proof.
  intros Hr Halt.
  assert (Hr' : radius_km low < radius_km high) by (unfold radius_km in *; lra).
  exists (orbital_speed low), (orbital_speed high).
  split; [now apply velocity_ms_defined | ].
  split; [apply velocity_ms_defined; lra | ].
  unfold orbital_speed.
  assert (Hl : 0 < 398600.4418 / radius_km low) by (apply Rdiv_lt_0_compat; lra).
  assert (Hh : 0 < 398600.4418 / radius_km high) by (apply Rdiv_lt_0_compat; lra).
  assert (Hlt : 398600.4418 / radius_km high < 398600.4418 / radius_km low).
  { unfold Rdiv. apply Rmult_lt_compat_l; [lra | ].
    apply Rinv_lt_contravar; nra. }
  pose proof (sqrt_lt_1 _ _ (Rlt_le _ _ Hh) (Rlt_le _ _ Hl) Hlt) as Hs.
  pose proof (sqrt_lt_R0 _ Hh) as Hp.
  pose proof (sqrt_sqrt _ (Rlt_le _ _ Hl)) as Hsq.
  split; [ | lra ].
  replace (sqrt (398600.4418 / radius_km low) * 1000 *
           (sqrt (398600.4418 / radius_km low) * 1000) * radius_km low)
    with (sqrt (398600.4418 / radius_km low) * sqrt (398600.4418 / radius_km low) *
          radius_km low * 1000000) by ring.
  rewrite Hsq. field. lra.
Qed.

Lemma velocity_ms_decreases_with_altitude_witness :
  exists v_low v_high,
    velocity_ms (orbit_at 350) = Ok v_low /\ velocity_ms (orbit_at 450) = Ok v_high /\
    v_low * v_low * radius_km (orbit_at 350) = 398600.4418 * 1000000 /\
    0 < v_high < v_low.
Proof.
  apply (velocity_ms_decreases_with_altitude (orbit_at 350) (orbit_at 450));
    unfold radius_km, orbit_at; cbn; lra.
Defined.

(** X4: a plane change costs nothing at 0 degrees, twice the speed at 180
    degrees, never more than twice the speed in absolute value, and changes
    sign with the angle. *)
Theorem plane_change_edges (velocity angle_deg : R) :
  plane_change velocity 0 = 0 /\
  plane_change velocity 180 = 2 * velocity /\
  Rabs (plane_change velocity angle_deg) <= 2 * Rabs velocity /\
  plane_change velocity (- angle_deg) = - plane_change velocity angle_deg.
Proof.
  unfold plane_change, Py.radians. repeat split.
  - replace (0 * (PI / 180) / 2) with 0 by field. rewrite sin_0. ring.
  - replace (180 * (PI / 180) / 2) with (PI / 2) by field. rewrite sin_PI2. ring.
  - rewrite Rabs_mult, Rabs_mult, (Rabs_pos_eq 2) by lra.
    pose proof (SIN_bound (angle_deg * (PI / 180) / 2)) as B.
    assert (Hs : Rabs (sin (angle_deg * (PI / 180) / 2)) <= 1) by (apply Rabs_le; lra).
    pose proof (Rabs_pos velocity). nra.
  - replace (- angle_deg * (PI / 180) / 2) with (- (angle_deg * (PI / 180) / 2)) by field.
    rewrite sin_neg. ring.
Qed.

(** X5: at a positive speed the cost of a plane change grows strictly with
    the angle between 0 and 180 degrees. *)
Theorem plane_change_increasing (velocity a b : R) :
  0 < velocity -> 0 <= a -> a < b -> b <= 180 ->
  plane_change velocity a < plane_change velocity b.
Proof.
  intros Hv Ha Hab Hb. unfold plane_change, Py.radians.
  pose proof PI_RGT_0 as Hpi.
  assert (Hs : sin (a * (PI / 180) / 2) < sin (b * (PI / 180) / 2)).
  { apply sin_increasing_1; nra. }
  nra.
Qed.

Lemma plane_change_increasing_witness :
  plane_change 7672 1 < plane_change 7672 2.
Proof. apply (plane_change_increasing 7672 1 2); lra. Defined.

(** ** Rendezvous cost model, continued *)

Lemma log10_separation_nonneg (sep : R) : 0 <= log10_separation sep.
Proof. apply log10_max_nonneg. Qed.

Lemma log10_separation_monotone (sep sep' : R) :
  sep <= sep' -> log10_separation sep <= log10_separation sep'.
Proof.
  intros H. unfold log10_separation. pose proof ln10_pos as L.
  apply Rmult_le_compat_r; [left; now apply Rinv_0_lt_compat | ].
  pose proof (max_one_ge sep) as G.
  assert (M : Py.max 1 sep <= Py.max 1 sep').
  { unfold Py.max. destruct (Rlt_dec 1 sep), (Rlt_dec 1 sep'); lra. }
  destruct M as [M | ->]; [left; apply ln_increasing; lra | right; reflexivity].
Qed.

(** X6: in a scenario with positive radii, a non-negative separation and an
    inclination difference between 0 and 360 degrees, each of the seven
    components of the TNI breakdown is non-negative and at most the same
    component of the standard breakdown. *)
Theorem tni_components_at_most_standard
    (chaser target : OrbitParams) (separation_km inclination_diff_deg : R) :
  0 < radius_km chaser -> 0 < radius_km target ->
  0 <= separation_km -> 0 <= inclination_diff_deg <= 360 ->
  exists s t,
    calculate_standard_rendezvous chaser target separation_km inclination_diff_deg = Ok s /\
    calculate_tni_rendezvous chaser target separation_km inclination_diff_deg = Ok t /\
    0 <= search_acquisition t <= search_acquisition s /\
    0 <= hohmann_transfer_dv t <= hohmann_transfer_dv s /\
    0 <= plane_change_dv t <= plane_change_dv s /\
    0 <= approach_corrections t <= approach_corrections s /\
    0 <= final_approach t <= final_approach s /\
    0 <= docking_maneuver t <= docking_maneuver s /\
    0 <= safety_margin t <= safety_margin s.
Proof.
  intros Hc Ht Hsep Hinc.
  exists (standard_breakdown chaser target separation_km inclination_diff_deg),
         (tni_breakdown chaser target separation_km inclination_diff_deg).
  split; [now apply standard_rendezvous_defined | ].
  split; [now apply tni_rendezvous_defined | ].
  unfold standard_breakdown, tni_breakdown.
  cbn [search_acquisition hohmann_transfer_dv plane_change_dv
       approach_corrections final_approach docking_maneuver safety_margin].
  pose proof (hohmann_cost_nonneg chaser target) as Hh.
  pose proof (plane_change_cost_nonneg target inclination_diff_deg Hinc) as Hp.
  pose proof (log10_separation_nonneg separation_km) as Hl.
  unfold plane_change_cost in *.
  destruct (Rlt_dec 0 inclination_diff_deg); repeat split; lra.
Qed.

Lemma tni_components_at_most_standard_witness :
  exists s t,
    calculate_standard_rendezvous (orbit_at 380) (orbit_at 420) 200 0 = Ok s /\
    calculate_tni_rendezvous (orbit_at 380) (orbit_at 420) 200 0 = Ok t /\
    0 <= search_acquisition t <= search_acquisition s /\
    0 <= hohmann_transfer_dv t <= hohmann_transfer_dv s /\
    0 <= plane_change_dv t <= plane_change_dv s /\
    0 <= approach_corrections t <= approach_corrections s /\
    0 <= final_approach t <= final_approach s /\
    0 <= docking_maneuver t <= docking_maneuver s /\
    0 <= safety_margin t <= safety_margin s.
Proof.
  apply (tni_components_at_most_standard (orbit_at 380) (orbit_at 420) 200 0);
    unfold radius_km, orbit_at; cbn; lra.
Defined.

(** X7: in such a scenario the standard total is at least 25.62 m/s, the
    TNI total at least 6.758 m/s, and the saving at least 18.862 m/s. *)
Theorem savings_lower_bound
    (chaser target : OrbitParams) (separation_km inclination_diff_deg : R) :
  0 < radius_km chaser -> 0 < radius_km target ->
  0 <= separation_km -> 0 <= inclination_diff_deg <= 360 ->
  exists s t,
    calculate_standard_rendezvous chaser target separation_km inclination_diff_deg = Ok s /\
    calculate_tni_rendezvous chaser target separation_km inclination_diff_deg = Ok t /\
    25.62 <= total s /\ 6.758 <= total t /\ 18.862 <= total s - total t.
Proof.
  intros Hc Ht Hsep Hinc.
  exists (standard_breakdown chaser target separation_km inclination_diff_deg),
         (tni_breakdown chaser target separation_km inclination_diff_deg).
  split; [now apply standard_rendezvous_defined | ].
  split; [now apply tni_rendezvous_defined | ].
  rewrite !total_unfold. unfold planned_dv, standard_breakdown, tni_breakdown.
  cbn [search_acquisition hohmann_transfer_dv plane_change_dv
       approach_corrections final_approach docking_maneuver safety_margin].
  pose proof (hohmann_cost_nonneg chaser target) as Hh.
  pose proof (plane_change_cost_nonneg target inclination_diff_deg Hinc) as Hp.
  pose proof (log10_separation_nonneg separation_km) as Hl.
  unfold plane_change_cost in *.
  destruct (Rlt_dec 0 inclination_diff_deg); repeat split; lra.
Qed.

Lemma savings_lower_bound_witness :
  exists s t,
    calculate_standard_rendezvous (orbit_at 350) (orbit_at 450) 300 0 = Ok s /\
    calculate_tni_rendezvous (orbit_at 350) (orbit_at 450) 300 0 = Ok t /\
    25.62 <= total s /\ 6.758 <= total t /\ 18.862 <= total s - total t.
Proof.
  apply (savings_lower_bound (orbit_at 350) (orbit_at 450) 300 0);
    unfold radius_km, orbit_at; cbn; lra.
Defined.

(** X8: for the same orbits and inclination difference, a larger
    separation never gives a smaller saving. *)
Theorem savings_grow_with_separation
    (chaser target : OrbitParams) (sep sep' inclination_diff_deg : R) :
  0 < radius_km chaser -> 0 < radius_km target -> sep <= sep' ->
  exists s t s' t',
    calculate_standard_rendezvous chaser target sep inclination_diff_deg = Ok s /\
    calculate_tni_rendezvous chaser target sep inclination_diff_deg = Ok t /\
    calculate_standard_rendezvous chaser target sep' inclination_diff_deg = Ok s' /\
    calculate_tni_rendezvous chaser target sep' inclination_diff_deg = Ok t' /\
    total s - total t <= total s' - total t'.
Proof.
  intros Hc Ht Hsep.
  exists (standard_breakdown chaser target sep inclination_diff_deg),
         (tni_breakdown chaser target sep inclination_diff_deg),
         (standard_breakdown chaser target sep' inclination_diff_deg),
         (tni_breakdown chaser target sep' inclination_diff_deg).
  split; [now apply standard_rendezvous_defined | ].
  split; [now apply tni_rendezvous_defined | ].
  split; [now apply standard_rendezvous_defined | ].
  split; [now apply tni_rendezvous_defined | ].
  rewrite !total_unfold. unfold planned_dv, standard_breakdown, tni_breakdown.
  cbn [search_acquisition hohmann_transfer_dv plane_change_dv
       approach_corrections final_approach docking_maneuver safety_margin].
  pose proof (log10_separation_monotone sep sep' Hsep) as Hl.
  unfold plane_change_cost. destruct (Rlt_dec 0 inclination_diff_deg); lra.
Qed.

Lemma savings_grow_with_separation_witness :
  exists s t s' t',
    calculate_standard_rendezvous (orbit_at 395) (orbit_at 400) 50 1 = Ok s /\
    calculate_tni_rendezvous (orbit_at 395) (orbit_at 400) 50 1 = Ok t /\
    calculate_standard_rendezvous (orbit_at 395) (orbit_at 400) 200 1 = Ok s' /\
    calculate_tni_rendezvous (orbit_at 395) (orbit_at 400) 200 1 = Ok t' /\
    total s - total t <= total s' - total t'.
Proof.
  apply (savings_grow_with_separation (orbit_at 395) (orbit_at 400) 50 200 1);
    unfold radius_km, orbit_at; cbn; lra.
Defined.

(** X9: the [inclination_deg] field of the two orbits is never read: orbits
    with the same altitudes give the same results, whatever their
    inclinations; only the [inclination_diff_deg] argument counts. *)
Theorem rendezvous_ignores_orbit_inclination
    (chaser target chaser' target' : OrbitParams) (separation_km inclination_diff_deg : R) :
  altitude_km chaser = altitude_km chaser' ->
  altitude_km target = altitude_km target' ->
  calculate_standard_rendezvous chaser target separation_km inclination_diff_deg =
  calculate_standard_rendezvous chaser' target' separation_km inclination_diff_deg /\
  calculate_tni_rendezvous chaser target separation_km inclination_diff_deg =
  calculate_tni_rendezvous chaser' target' separation_km inclination_diff_deg.
Proof.
  intros Hc Ht.
  unfold calculate_standard_rendezvous, calculate_tni_rendezvous, velocity_ms, radius_km.
  rewrite Hc, Ht. split; reflexivity.
Qed.

Lemma rendezvous_ignores_orbit_inclination_witness :
  calculate_standard_rendezvous (mkOrbitParams 400 28.5) (mkOrbitParams 400 29.5) 100 1 =
  calculate_standard_rendezvous (orbit_at 400) (orbit_at 400) 100 1 /\
  calculate_tni_rendezvous (mkOrbitParams 400 28.5) (mkOrbitParams 400 29.5) 100 1 =
  calculate_tni_rendezvous (orbit_at 400) (orbit_at 400) 100 1.
Proof.
  apply (rendezvous_ignores_orbit_inclination
           (mkOrbitParams 400 28.5) (mkOrbitParams 400 29.5) (orbit_at 400) (orbit_at 400));
    reflexivity.
Defined.

(** X10: an inclination difference that is zero or negative is treated as
    none: the results are those for 0 degrees and the plane-change component
    is zero in both breakdowns. *)
Theorem nonpositive_inclination_difference_is_ignored
    (chaser target : OrbitParams) (separation_km inclination_diff_deg : R) :
  0 < radius_km chaser -> 0 < radius_km target -> inclination_diff_deg <= 0 ->
  exists s t,
    calculate_standard_rendezvous chaser target separation_km inclination_diff_deg = Ok s /\
    calculate_tni_rendezvous chaser target separation_km inclination_diff_deg = Ok t /\
    calculate_standard_rendezvous chaser target separation_km 0 = Ok s /\
    calculate_tni_rendezvous chaser target separation_km 0 = Ok t /\
    plane_change_dv s = 0 /\ plane_change_dv t = 0.
Proof.
  intros Hc Ht Hinc.
  exists (standard_breakdown chaser target separation_km inclination_diff_deg),
         (tni_breakdown chaser target separation_km inclination_diff_deg).
  split; [now apply standard_rendezvous_defined | ].
  split; [now apply tni_rendezvous_defined | ].
  rewrite standard_rendezvous_defined, tni_rendezvous_defined by assumption.
  unfold standard_breakdown, tni_breakdown, plane_change_cost.
  cbn [plane_change_dv].
  destruct (Rlt_dec 0 inclination_diff_deg) as [P | _]; [lra | ].
  destruct (Rlt_dec 0 0) as [P | _]; [lra | ].
  repeat split; lra.
Qed.

Lemma nonpositive_inclination_difference_is_ignored_witness :
  exists s t,
    calculate_standard_rendezvous (orbit_at 395) (orbit_at 400) 50 (-1) = Ok s /\
    calculate_tni_rendezvous (orbit_at 395) (orbit_at 400) 50 (-1) = Ok t /\
    calculate_standard_rendezvous (orbit_at 395) (orbit_at 400) 50 0 = Ok s /\
    calculate_tni_rendezvous (orbit_at 395) (orbit_at 400) 50 0 = Ok t /\
    plane_change_dv s = 0 /\ plane_change_dv t = 0.
Proof.
  apply (nonpositive_inclination_difference_is_ignored (orbit_at 395) (orbit_at 400) 50 (-1));
    unfold radius_km, orbit_at; cbn; lra.
Defined.

(** X11: a separation of at most 1 km (zero and negative ones included) is
    clamped to 1 km under the logarithm, so the final-approach component is
    exactly 4.0 m/s (standard) and 1.5 m/s (TNI) and no logarithm of a
    non-positive number is taken. *)
Theorem small_separation_is_clamped
    (chaser target : OrbitParams) (separation_km inclination_diff_deg : R) :
  0 < radius_km chaser -> 0 < radius_km target -> separation_km <= 1 ->
  exists s t,
    calculate_standard_rendezvous chaser target separation_km inclination_diff_deg = Ok s /\
    calculate_tni_rendezvous chaser target separation_km inclination_diff_deg = Ok t /\
    final_approach s = 4.0 /\ final_approach t = 1.5.
Proof.
  intros Hc Ht Hsep.
  exists (standard_breakdown chaser target separation_km inclination_diff_deg),
         (tni_breakdown chaser target separation_km inclination_diff_deg).
  split; [now apply standard_rendezvous_defined | ].
  split; [now apply tni_rendezvous_defined | ].
  unfold standard_breakdown, tni_breakdown, log10_separation, Py.max.
  cbn [final_approach].
  destruct (Rlt_dec 1 separation_km) as [P | _]; [lra | ].
  rewrite ln_1. unfold Rdiv. rewrite Rmult_0_l. split; lra.
Qed.

Lemma small_separation_is_clamped_witness :
  exists s t,
    calculate_standard_rendezvous (orbit_at 395) (orbit_at 400) (-3) 0 = Ok s /\
    calculate_tni_rendezvous (orbit_at 395) (orbit_at 400) (-3) 0 = Ok t /\
    final_approach s = 4.0 /\ final_approach t = 1.5.
Proof.
  apply (small_separation_is_clamped (orbit_at 395) (orbit_at 400) (-3) 0);
    unfold radius_km, orbit_at; cbn; lra.
Defined.

(** ** Rocket equation, continued *)

(** X12: within the range of [math.exp] the rocket equation composes over
    burns: the propellant for [dv1 + dv2] is the propellant [m1] for [dv1]
    with the dry mass, plus the propellant for [dv2] with a vehicle that
    still carries [m1]. *)
Theorem propellant_mass_of_two_burns (dv1 dv2 dry_mass_kg isp_s : R) :
  0 < isp_s -> 0 <= dv1 -> 0 <= dv2 ->
  (dv1 + dv2) / (isp_s * 9.80665) <= - Py.EXP_UNDERFLOW ->
  exists m1 m2 m,
    calculate_propellant_mass dv1 dry_mass_kg isp_s = Ok m1 /\
    calculate_propellant_mass dv2 (dry_mass_kg + m1) isp_s = Ok m2 /\
    calculate_propellant_mass (dv1 + dv2) dry_mass_kg isp_s = Ok m /\
    m = m1 + m2.
Proof.
  intros Hisp H1 H2 Hmax.
  assert (Hve : 0 < isp_s * 9.80665) by lra.
  assert (Hinv : 0 < / (isp_s * 9.80665)) by now apply Rinv_0_lt_compat.
  assert (Hsum : (dv1 + dv2) / (isp_s * 9.80665) =
                 dv1 / (isp_s * 9.80665) + dv2 / (isp_s * 9.80665)) by (field; lra).
  pose proof (ratio_nonneg dv1 _ Hve H1) as P1.
  pose proof (ratio_nonneg dv2 _ Hve H2) as P2.
  exists (dry_mass_kg * (exp (dv1 / (isp_s * 9.80665)) - 1)).
  rewrite !propellant_mass_rocket_form;
    try lra; try (apply neg_ratio_in_range; lra).
  do 2 eexists. split; [reflexivity | ]. split; [reflexivity | ].
  split; [reflexivity | ].
  rewrite Hsum, exp_plus. ring.
Qed.

Lemma propellant_mass_of_two_burns_witness :
  exists m1 m2 m,
    calculate_propellant_mass 10 100000 380 = Ok m1 /\
    calculate_propellant_mass 25 (100000 + m1) 380 = Ok m2 /\
    calculate_propellant_mass (10 + 25) 100000 380 = Ok m /\
    m = m1 + m2.
Proof.
  apply (propellant_mass_of_two_burns 10 25 100000 380);
    unfold Py.EXP_UNDERFLOW; lra.
Defined.

(** [int] of a non-negative number is its floor. *)
Lemma int_floor_bounds (x : R) :
  0 <= x -> (0 <= Py.int x)%Z /\ IZR (Py.int x) <= x < IZR (Py.int x) + 1.
Proof.
  intros Hx. unfold Py.int. destruct (Rle_dec 0 x) as [_ | N]; [ | contradiction ].
  destruct (base_Int_part x) as [Hlo Hhi]. split; [ | lra ].
  apply Z.lt_succ_r. apply lt_IZR. rewrite succ_IZR. lra.
Qed.

Lemma scenario_totals (chaser target : OrbitParams) (sep inc : R) :
  0 <= sep -> 0 <= inc <= 360 ->
  25.62 <= total (standard_breakdown chaser target sep inc) /\
  6.758 <= total (tni_breakdown chaser target sep inc) /\
  total (tni_breakdown chaser target sep inc) <
  total (standard_breakdown chaser target sep inc).
Proof.
  intros Hsep Hinc.
  split; [ | split; [ | now apply tni_total_below_standard ] ].
  - rewrite total_unfold. unfold planned_dv, standard_breakdown.
    cbn [search_acquisition hohmann_transfer_dv plane_change_dv
         approach_corrections final_approach docking_maneuver safety_margin].
    pose proof (hohmann_cost_nonneg chaser target).
    pose proof (plane_change_cost_nonneg target inc Hinc).
    pose proof (log10_separation_nonneg sep). lra.
  - rewrite total_unfold. unfold planned_dv, tni_breakdown.
    cbn [search_acquisition hohmann_transfer_dv plane_change_dv
         approach_corrections final_approach docking_maneuver safety_margin].
    pose proof (hohmann_cost_nonneg chaser target).
    pose proof (plane_change_cost_nonneg target inc Hinc) as Hp.
    pose proof (log10_separation_nonneg sep).
    unfold plane_change_cost in Hp. destruct (Rlt_dec 0 inc); lra.
Qed.

(** X13: for the two breakdowns of a scenario (positive radii, non-negative
    separation, inclination difference between 0 and 360 degrees) and a
    positive vehicle mass, [print_scenario] raises nothing as long as the
    standard total divided by the exhaust velocity [380 * 9.80665] is within
    the range of [math.exp]: the saving is then positive and a percentage
    strictly between 0 and 100, the propellant saved is positive, and the
    satellite count is shown exactly when the propellant saved reaches 260
    kg, as the number of whole 260 kg units in it.  For a larger standard
    total the propellant computation raises [ZeroDivisionError]. *)
Theorem print_scenario_figures
    (chaser target : OrbitParams) (separation_km inclination_diff_deg vehicle_mass_kg : R)
    (s t : DeltaVBreakdown) :
  0 < radius_km chaser -> 0 < radius_km target ->
  0 <= separation_km -> 0 <= inclination_diff_deg <= 360 ->
  0 < vehicle_mass_kg ->
  calculate_standard_rendezvous chaser target separation_km inclination_diff_deg = Ok s ->
  calculate_tni_rendezvous chaser target separation_km inclination_diff_deg = Ok t ->
  (total s / (380 * 9.80665) <= - Py.EXP_UNDERFLOW ->
     exists f,
       print_scenario s t vehicle_mass_kg = Ok f /\
       fig_savings f = total s - total t /\
       0 < fig_savings f /\
       0 < fig_savings_pct f < 100 /\
       0 < fig_prop_saved f /\
       match fig_extra_sats f with
       | Some n => 260 <= fig_prop_saved f /\ (1 <= n)%Z /\
                   260 * IZR n <= fig_prop_saved f < 260 * (IZR n + 1)
       | None => fig_prop_saved f < 260
       end) /\
  (- Py.EXP_UNDERFLOW < total s / (380 * 9.80665) ->
     print_scenario s t vehicle_mass_kg = Err ZeroDivisionError).
Proof.
  intros Hc Ht Hsep Hinc Hm Es Et.
  rewrite standard_rendezvous_defined in Es by assumption. injection Es as <-.
  rewrite tni_rendezvous_defined in Et by assumption. injection Et as <-.
  destruct (scenario_totals chaser target separation_km inclination_diff_deg Hsep Hinc)
    as (Hs & Htt & Hd).
  set (s := standard_breakdown chaser target separation_km inclination_diff_deg) in *.
  set (t := tni_breakdown chaser target separation_km inclination_diff_deg) in *.
  assert (Hve : 0 < 380 * 9.80665) by lra.
  unfold print_scenario. rewrite div_defined by lra. cbn [bind].
  split.
  - intros Hmax.
    pose proof (ratio_monotone (total t) (total s) _ Hve Hd) as Hr.
    pose proof (ratio_nonneg (total t) _ Hve ltac:(lra)) as Hr0.
    rewrite !propellant_mass_rocket_form;
      try lra; try (apply neg_ratio_in_range; lra).
    cbn [bind]. eexists. split; [reflexivity | ].
    cbn [fig_savings fig_savings_pct fig_prop_saved fig_extra_sats].
    split; [reflexivity | ]. split; [lra | ].
    assert (Hinv : 0 < / total s) by (apply Rinv_0_lt_compat; lra).
    assert (Hq : 0 < (total s - total t) / total s < 1).
    { unfold Rdiv. split; [apply Rmult_lt_0_compat; lra | ].
      apply Rmult_lt_reg_r with (total s); [lra | ].
      rewrite Rmult_assoc, Rinv_l by lra. lra. }
    split; [lra | ].
    pose proof (exp_increasing _ _ Hr) as Hexp.
    set (p := vehicle_mass_kg * (exp (total s / (380 * 9.80665)) - 1) -
              vehicle_mass_kg * (exp (total t / (380 * 9.80665)) - 1)) in *.
    assert (Hp : 0 < p) by (unfold p; nra).
    split; [exact Hp | ].
    destruct (Rle_dec 260 p) as [G | G]; [ | lra ].
    destruct (int_floor_bounds (p / 260)) as (_ & Hlo & Hhi); [lra | ].
    split; [exact G | ].
    split; [ | lra ].
    apply Z.lt_pred_le. apply lt_IZR. cbn. lra.
  - intros Hbig. rewrite propellant_mass_underflow; [reflexivity | lra | ].
    replace (- total s / (380 * 9.80665)) with (- (total s / (380 * 9.80665)))
      by (field; lra).
    lra.
Qed.

Lemma print_scenario_figures_witness :
  exists s t f,
    calculate_standard_rendezvous (orbit_at 400) (orbit_at 400) 100 0 = Ok s /\
    calculate_tni_rendezvous (orbit_at 400) (orbit_at 400) 100 0 = Ok t /\
    print_scenario s t 100000 = Ok f /\
    fig_savings f = total s - total t /\
    0 < fig_savings f /\
    0 < fig_savings_pct f < 100 /\
    0 < fig_prop_saved f /\
    match fig_extra_sats f with
    | Some n => 260 <= fig_prop_saved f /\ (1 <= n)%Z /\
                260 * IZR n <= fig_prop_saved f < 260 * (IZR n + 1)
    | None => fig_prop_saved f < 260
    end.
Proof.
  assert (Hr : 0 < radius_km (orbit_at 400)) by (unfold radius_km, orbit_at; cbn; lra).
  exists (standard_breakdown (orbit_at 400) (orbit_at 400) 100 0),
         (tni_breakdown (orbit_at 400) (orbit_at 400) 100 0).
  pose proof (standard_rendezvous_defined (orbit_at 400) (orbit_at 400) 100 0 Hr Hr) as Es.
  pose proof (tni_rendezvous_defined (orbit_at 400) (orbit_at 400) 100 0 Hr Hr) as Et.
  destruct (print_scenario_figures (orbit_at 400) (orbit_at 400) 100 0 100000 _ _
              Hr Hr ltac:(lra) ltac:(lra) ltac:(lra) Es Et) as (H & _).
  destruct H as (f & Hf).
  - rewrite total_unfold.
    unfold planned_dv, standard_breakdown, plane_change_cost, hohmann_cost.
    cbn [search_acquisition hohmann_transfer_dv plane_change_dv
         approach_corrections final_approach docking_maneuver safety_margin].
    rewrite equal_radius_first_burn, equal_radius_second_burn by assumption.
    rewrite log10_separation_100.
    destruct (Rlt_dec 0 0) as [P | _]; [lra | ].
    unfold Py.EXP_UNDERFLOW. lra.
  - exists f. split; [exact Es | ]. split; [exact Et | exact Hf].
Defined.

(** ** The estimators of [tni_performace.py] and [calc.py] *)

(** X15: the estimate of [calc.py] divides by the TNI budget before it
    discards the quotient: it raises [ZeroDivisionError] when that budget is
    zero and returns 9.9 m/s for every other pair of budgets. *)
Theorem calc_delta_v_saved_is_constant (current_dv_budget tni_dv_budget : R) :
  (tni_dv_budget <> 0 ->
     Calc.calculate_delta_v_saved current_dv_budget tni_dv_budget = Ok 9.9) /\
  Calc.calculate_delta_v_saved current_dv_budget 0 = Err ZeroDivisionError.
Proof.
  unfold Calc.calculate_delta_v_saved. split.
  - intros H. rewrite div_defined by assumption. cbn [bind]. f_equal. lra.
  - rewrite div_by_zero. reflexivity.
Qed.

Lemma calc_delta_v_saved_is_constant_witness :
  Calc.calculate_delta_v_saved 45.0 0.1 = Ok 9.9.
Proof. apply (calc_delta_v_saved_is_constant 45.0 0.1). lra. Defined.

(** X16: the apogee/perigee improvement factor times the TNI error gives
    back the current error in metres; a zero TNI error raises
    [ZeroDivisionError]. *)
Theorem apoapsis_periapsis_error_factor (current_error_km tni_error_m : R) :
  (tni_error_m <> 0 ->
     exists factor,
       Perf.calculate_apoapsis_periapsis_error current_error_km tni_error_m =
       Ok (current_error_km * 1000, tni_error_m, factor) /\
       factor * tni_error_m = current_error_km * 1000) /\
  Perf.calculate_apoapsis_periapsis_error current_error_km 0 = Err ZeroDivisionError.
Proof.
  unfold Perf.calculate_apoapsis_periapsis_error. split.
  - intros H. rewrite div_defined by assumption. cbn [bind].
    eexists. split; [reflexivity | field; assumption].
  - rewrite div_by_zero. reflexivity.
Qed.

Lemma apoapsis_periapsis_error_factor_witness :
  exists factor,
    Perf.calculate_apoapsis_periapsis_error 3.0 150.0 = Ok (3.0 * 1000, 150.0, factor) /\
    factor * 150.0 = 3.0 * 1000.
Proof. apply (apoapsis_periapsis_error_factor 3.0 150.0). lra. Defined.

(** X17: for a non-negative saving the payload gain is 400 kg per m/s, its
    value 2940 USD per kg, and the number of extra satellites the number of
    whole 260 kg units in the gain. *)
Theorem mission_value_savings_bounds (dv_saved_mps : R) :
  0 <= dv_saved_mps ->
  let v := Perf.calculate_mission_value_savings dv_saved_mps in
  Perf.payload_gain_kg v = 400 * dv_saved_mps /\
  Perf.payload_value_usd v = 2940 * Perf.payload_gain_kg v /\
  (0 <= Perf.extra_satellites v)%Z /\
  260 * IZR (Perf.extra_satellites v) <= Perf.payload_gain_kg v
    < 260 * (IZR (Perf.extra_satellites v) + 1).
Proof.
  intros Hdv. cbv zeta. unfold Perf.calculate_mission_value_savings.
  cbn [Perf.payload_gain_kg Perf.payload_value_usd Perf.extra_satellites].
  destruct (int_floor_bounds (dv_saved_mps * 400 / 260)) as (Hz & Hlo & Hhi); [lra | ].
  split; [ring | ]. split; [ring | ]. split; [exact Hz | lra].
Qed.

Lemma mission_value_savings_bounds_witness :
  let v := Perf.calculate_mission_value_savings 30 in
  Perf.payload_gain_kg v = 400 * 30 /\
  Perf.payload_value_usd v = 2940 * Perf.payload_gain_kg v /\
  (0 <= Perf.extra_satellites v)%Z /\
  260 * IZR (Perf.extra_satellites v) <= Perf.payload_gain_kg v
    < 260 * (IZR (Perf.extra_satellites v) + 1).
Proof. apply (mission_value_savings_bounds 30). lra. Defined.

(** X18: for a positive dry mass and specific impulse the propellant saved is
    zero for no delta-v saved and, while [dv / ve] is within the range of
    [math.exp], strictly increasing in the delta-v saved, with the cost
    saved always half the propellant saved; beyond that range (and while
    [dv / ve] is a finite float) [math.exp] raises [OverflowError], and a
    zero specific impulse raises [ZeroDivisionError]. *)
Theorem propellant_cost_savings_monotone (isp dry_mass_kg : R) :
  0 < isp -> 0 < dry_mass_kg ->
  calculate_propellant_cost_savings 0 isp dry_mass_kg = Ok (0, 0) /\
  calculate_propellant_cost_savings 0 0 dry_mass_kg = Err ZeroDivisionError /\
  (forall dv dv' : R, 0 <= dv -> dv < dv' ->
     dv' / (isp * 9.81) <= Py.EXP_OVERFLOW ->
     exists m c m' c',
       calculate_propellant_cost_savings dv isp dry_mass_kg = Ok (m, c) /\
       calculate_propellant_cost_savings dv' isp dry_mass_kg = Ok (m', c') /\
       m < m' /\ c = m * 0.5 /\ c' = m' * 0.5) /\
  (forall dv : R, Py.EXP_OVERFLOW < dv / (isp * 9.81) <= Py.FLOAT_MAX ->
     calculate_propellant_cost_savings dv isp dry_mass_kg = Err OverflowError).
Proof.
  intros Hisp Hdry. assert (Hve : 0 < isp * 9.81) by lra.
  split; [ | split; [ | split ] ].
  - rewrite propellant_cost_savings_defined; [ | lra | ].
    + unfold Rdiv. rewrite Rmult_0_l, exp_0. f_equal. f_equal; ring.
    + unfold Rdiv. rewrite Rmult_0_l. unfold Py.EXP_UNDERFLOW, Py.EXP_OVERFLOW. lra.
  - unfold calculate_propellant_cost_savings. rewrite Rmult_0_l, div_by_zero. reflexivity.
  - intros dv dv' Hdv Hlt Hmax.
    pose proof (ratio_monotone dv dv' _ Hve Hlt) as Hr.
    pose proof (ratio_nonneg dv _ Hve Hdv) as Hr0.
    rewrite !propellant_cost_savings_defined;
      try lra; try (unfold Py.EXP_UNDERFLOW, Py.EXP_OVERFLOW in *; lra).
    do 4 eexists. split; [reflexivity | ]. split; [reflexivity | ].
    pose proof (exp_increasing _ _ Hr) as Hexp.
    split; [nra | ]. split; lra.
  - intros dv [Hbig _]. apply propellant_cost_savings_overflow; [lra | assumption].
Qed.

Lemma propellant_cost_savings_monotone_witness :
  calculate_propellant_cost_savings 0 380 120000 = Ok (0, 0) /\
  exists m c m' c',
    calculate_propellant_cost_savings 15 380 120000 = Ok (m, c) /\
    calculate_propellant_cost_savings 45 380 120000 = Ok (m', c') /\
    m < m' /\ c = m * 0.5 /\ c' = m' * 0.5.
Proof.
  destruct (propellant_cost_savings_monotone 380 120000) as (H0 & _ & Hinc & _);
    [lra | lra | ].
  split; [exact H0 | apply Hinc; unfold Py.EXP_OVERFLOW; lra].
Defined.

(** ** Mission-phase simulator, continued *)

(** Induction over the run loop: a property of the constructed state that
    survives the toggle, a speed change and the update of a running
    simulator holds of every reachable state. *)
Lemma reachable_invariant (P : Sim.TNISimulator -> Prop) :
  P Sim.__init__ ->
  (forall s b, P s -> P (Sim.set_running b s)) ->
  (forall s direction, P s -> P (Sim._handle_speed_change direction s)) ->
  (forall s dt rnd1 rnd2,
     Sim.reachable s -> P s -> Sim.is_running s = true ->
     0 <= dt -> 0 <= rnd1 < 1 -> 0 <= rnd2 < 1 ->
     P (Sim._update_simulation_state dt rnd1 rnd2 s)) ->
  forall s, Sim.reachable s -> P s.
Proof.
  intros Hinit Hrun Hspeed Hupd s Hreach.
  induction Hreach as [ | s s' Hreach IH Hstep]; [exact Hinit | ].
  destruct Hstep as [s | s | s direction _ | s dt rnd1 rnd2 Hdt H1 H2].
  - now apply Hrun.
  - now apply Hrun.
  - now apply Hspeed.
  - destruct (Sim.is_running s) eqn:E.
    + now apply Hupd.
    + now rewrite update_paused.
Qed.

(** Replaces [Z.to_nat] of a literal by its value, in the goal and in [H]. *)
Ltac to_nat_literals :=
  repeat match goal with
         | |- context [Z.to_nat ?k] =>
             let n := eval vm_compute in (Z.to_nat k) in
             change (Z.to_nat k) with n
         | H : context [Z.to_nat ?k] |- _ =>
             let n := eval vm_compute in (Z.to_nat k) in
             change (Z.to_nat k) with n in H
         end.

Lemma speed_index_cases (i : Z) :
  (0 <= i <= 4)%Z -> i = 0%Z \/ i = 1%Z \/ i = 2%Z \/ i = 3%Z \/ i = 4%Z.
Proof. lia. Qed.

Lemma handle_speed_change_cases (direction : Z) (s : Sim.TNISimulator) :
  let n := (Sim.speed_index s + direction)%Z in
  ((0 <= n <= 4)%Z /\
   Sim._handle_speed_change direction s =
   Sim.mkSim (Sim.time_s s) (Sim.is_running s) (Sim.current_phase s)
     (Sim.altitude_km s) (Sim.position_error_m s) (Sim.velocity_error_mps s)
     (Sim.dv_saved_mps s) (Sim.active_links s) (Sim.is_tni_active s) n
     (nth (Z.to_nat n) Sim.SPEED_MULTIPLIERS 0) (Sim.satellites s) (Sim.vehicle s)) \/
  (~ (0 <= n <= 4)%Z /\ Sim._handle_speed_change direction s = s).
Proof.
  cbv zeta. unfold Sim._handle_speed_change.
  destruct ((0 <=? Sim.speed_index s + direction)%Z &&
            (Sim.speed_index s + direction <?
             Z.of_nat (List.length Sim.SPEED_MULTIPLIERS))%Z)%bool eqn:E.
  - left. apply andb_true_iff in E. destruct E as [E1 E2].
    apply Z.leb_le in E1. apply Z.ltb_lt in E2. cbn in E2.
    split; [lia | reflexivity].
  - right. split; [ | reflexivity ].
    apply andb_false_iff in E. destruct E as [E | E].
    + apply Z.leb_gt in E. lia.
    + apply Z.ltb_ge in E. cbn in E. lia.
Qed.

(** X19: on every reachable state the speed index lies between 0 and 4,
    the multiplier is the entry of [SPEED_MULTIPLIERS] at that index, and
    so the multiplier lies between 0.25 and 4. *)
Theorem speed_setting_invariant (s : Sim.TNISimulator) :
  Sim.reachable s ->
  (0 <= Sim.speed_index s <= 4)%Z /\
  Sim.current_speed_multiplier s =
    nth (Z.to_nat (Sim.speed_index s)) Sim.SPEED_MULTIPLIERS 0 /\
  0.25 <= Sim.current_speed_multiplier s <= 4.
Proof.
  intros Hreach.
  enough (H : (0 <= Sim.speed_index s <= 4)%Z /\
              Sim.current_speed_multiplier s =
                nth (Z.to_nat (Sim.speed_index s)) Sim.SPEED_MULTIPLIERS 0).
  { destruct H as [Hi Hm]. split; [exact Hi | ]. split; [exact Hm | ].
    rewrite Hm.
    destruct (speed_index_cases _ Hi) as [-> | [-> | [-> | [-> | ->]]]];
      to_nat_literals; cbn; lra. }
  revert s Hreach. apply reachable_invariant.
  - cbn. split; [lia | reflexivity].
  - intros s b H. exact H.
  - intros s direction H.
    destruct (handle_speed_change_cases direction s) as [(Hn & ->) | (_ & ->)];
      [ | exact H ].
    cbn. split; [exact Hn | reflexivity].
  - intros s dt rnd1 rnd2 _ H Hrun _ _ _.
    unfold Sim._update_simulation_state. rewrite Hrun. exact H.
Qed.

Lemma speed_setting_invariant_witness :
  (0 <= Sim.speed_index Sim.started <= 4)%Z /\
  Sim.current_speed_multiplier Sim.started =
    nth (Z.to_nat (Sim.speed_index Sim.started)) Sim.SPEED_MULTIPLIERS 0 /\
  0.25 <= Sim.current_speed_multiplier Sim.started <= 4.
Proof.
  apply (speed_setting_invariant Sim.started).
  apply (Sim.reach_step Sim.__init__); [apply Sim.reach_init | apply Sim.step_toggle].
Defined.

(** X20: on a reachable state a speed-up followed by a speed-down restores
    the state unless the speed is already the highest, where the speed-up
    changes nothing; and symmetrically for a speed-down at the lowest
    speed. *)
Theorem speed_change_round_trip (s : Sim.TNISimulator) :
  Sim.reachable s ->
  ((Sim.speed_index s < 4)%Z ->
     Sim._handle_speed_change (-1) (Sim._handle_speed_change 1 s) = s) /\
  (Sim.speed_index s = 4%Z -> Sim._handle_speed_change 1 s = s) /\
  ((0 < Sim.speed_index s)%Z ->
     Sim._handle_speed_change 1 (Sim._handle_speed_change (-1) s) = s) /\
  (Sim.speed_index s = 0%Z -> Sim._handle_speed_change (-1) s = s).
Proof.
  intros Hreach.
  destruct (speed_setting_invariant s Hreach) as (Hi & Hm & _).
  destruct s as [t run ph alt pos vel dv links tni idx mult sats veh].
  cbn [Sim.speed_index Sim.current_speed_multiplier] in *.
  destruct (speed_index_cases _ Hi) as [-> | [-> | [-> | [-> | ->]]]];
    to_nat_literals; cbn in Hm; subst mult;
    (split; [intros L | split; [intros L | split; [intros L | intros L]]]);
    try lia; reflexivity.
Qed.

Lemma speed_change_round_trip_witness :
  Sim._handle_speed_change (-1) (Sim._handle_speed_change 1 Sim.started) = Sim.started.
Proof.
  assert (Hreach : Sim.reachable Sim.started).
  { apply (Sim.reach_step Sim.__init__); [apply Sim.reach_init | apply Sim.step_toggle]. }
  destruct (speed_change_round_trip Sim.started Hreach) as (H & _).
  apply H. cbn. lia.
Defined.

Lemma exp_le_1 (x : R) : x <= 0 -> 0 < exp x <= 1.
Proof.
  intros [H | ->].
  - pose proof (exp_increasing _ _ H) as E. rewrite exp_0 in E.
    pose proof (exp_pos x). lra.
  - rewrite exp_0. lra.
Qed.

Lemma int_of_nonneg_below (x : R) (n : Z) :
  0 <= x -> x < IZR n -> (0 <= Py.int x < n)%Z.
Proof.
  intros H0 Hn. destruct (int_floor_bounds x H0) as (Hz & Hlo & _).
  split; [exact Hz | ]. apply lt_IZR. lra.
Qed.

(** The ranges the update keeps the state in. *)
Lemma reachable_bounds (s : Sim.TNISimulator) :
  Sim.reachable s ->
  0 <= Sim.time_s s /\
  0 <= Sim.altitude_km s < 309.2 /\
  0.03 <= Sim.position_error_m s <= 25 /\
  0.002 <= Sim.velocity_error_mps s <= 0.15 /\
  0 <= Sim.dv_saved_mps s < 45 /\
  (0 <= Sim.active_links s <= 10)%Z.
Proof.
  revert s. apply reachable_invariant.
  - cbn. repeat split; try lra; lia.
  - intros s b H. exact H.
  - intros s direction H.
    destruct (handle_speed_change_cases direction s) as [(_ & ->) | (_ & ->)]; exact H.
  - intros s dt rnd1 rnd2 Hreach (Ht & Ha & Hp & Hv & Hd & Hl) Hrun Hdt H1 H2.
    destruct (speed_setting_invariant s Hreach) as (_ & _ & Hm).
    destruct (update_running dt rnd1 rnd2 s Hrun)
      as (Et & _ & _ & Ea & Epos & Ev & Ed & El & _ & _).
    set (s' := Sim._update_simulation_state dt rnd1 rnd2 s) in *.
    set (t := Sim.time_s s + dt * Sim.current_speed_multiplier s) in *.
    assert (Ht' : 0 <= t) by (unfold t; nra).
    rewrite Et, Ea, Epos, Ev, Ed, El.
    destruct (dispatch_cases t rnd1 rnd2 s)
      as [(B & ->) | [(B & ->) | [(B & ->) | [(B & ->) | (B & ->)]]]];
      cbn [Sim.pv_altitude Sim.pv_pos_err Sim.pv_vel_err Sim.pv_dv_saved Sim.pv_links].
    + repeat split; try lra; lia.
    + destruct (exp_le_1 (- (t - 150) / 9)) as [P9 Q9]; [lra | ].
      destruct (exp_le_1 (- (t - 150) / 7)) as [P7 Q7]; [lra | ].
      destruct (int_floor_bounds ((t - 150) * 0.5)) as (Hz & _); [lra | ].
      unfold Py.max.
      destruct (Rlt_dec 0.03 (20 * exp (- (t - 150) / 9)));
        destruct (Rlt_dec 0.003 (0.15 * exp (- (t - 150) / 7)));
        repeat split; try lra; lia.
    + repeat split; try lra; lia.
    + destruct (int_floor_bounds ((t - 290) * 0.5)) as (Hz & _); [lra | ].
      repeat split; try lra; lia.
    + repeat split; try lra; lia.
Qed.

(** X21: on every reachable state the clock is non-negative and the
    altitude lies in [[0, 309.2)] km; an update with a non-negative [dt]
    never moves the clock back. *)
Theorem clock_and_altitude_bounds (s : Sim.TNISimulator) (dt rnd1 rnd2 : R) :
  Sim.reachable s -> 0 <= dt ->
  0 <= Sim.time_s s /\
  0 <= Sim.altitude_km s < 309.2 /\
  Sim.time_s s <= Sim.time_s (Sim._update_simulation_state dt rnd1 rnd2 s).
Proof.
  intros Hreach Hdt.
  destruct (reachable_bounds s Hreach) as (Ht & Ha & _).
  split; [exact Ht | ]. split; [exact Ha | ].
  destruct (Sim.is_running s) eqn:Hrun.
  - destruct (update_running dt rnd1 rnd2 s Hrun) as (Et & _).
    destruct (speed_setting_invariant s Hreach) as (_ & _ & Hm).
    rewrite Et. nra.
  - rewrite update_paused by assumption. lra.
Qed.

Lemma clock_and_altitude_bounds_witness :
  0 <= Sim.time_s Sim.started /\
  0 <= Sim.altitude_km Sim.started < 309.2 /\
  Sim.time_s Sim.started <=
    Sim.time_s (Sim._update_simulation_state 10 0 0 Sim.started).
Proof.
  apply (clock_and_altitude_bounds Sim.started 10 0 0); [ | lra ].
  apply (Sim.reach_step Sim.__init__); [apply Sim.reach_init | apply Sim.step_toggle].
Defined.

(** X22: on every reachable state the position error lies in [[0.03, 25]]
    m, the velocity error in [[0.002, 0.15]] m/s, the delta-v saved in
    [[0, 45)] m/s and the number of active links in [[0, 10]]. *)
Theorem precision_and_link_bounds (s : Sim.TNISimulator) :
  Sim.reachable s ->
  0.03 <= Sim.position_error_m s <= 25 /\
  0.002 <= Sim.velocity_error_mps s <= 0.15 /\
  0 <= Sim.dv_saved_mps s < 45 /\
  (0 <= Sim.active_links s <= 10)%Z.
Proof.
  intros Hreach. destruct (reachable_bounds s Hreach) as (_ & _ & H). exact H.
Qed.

Lemma precision_and_link_bounds_witness :
  let s := Sim._update_simulation_state 200 0 0 Sim.started in
  0.03 <= Sim.position_error_m s <= 25 /\
  0.002 <= Sim.velocity_error_mps s <= 0.15 /\
  0 <= Sim.dv_saved_mps s < 45 /\
  (0 <= Sim.active_links s <= 10)%Z.
Proof.
  apply (precision_and_link_bounds (Sim._update_simulation_state 200 0 0 Sim.started)).
  apply (Sim.reach_step Sim.started).
  - apply (Sim.reach_step Sim.__init__); [apply Sim.reach_init | apply Sim.step_toggle].
  - apply Sim.step_update; lra.
Defined.

(** X23: an update of a running simulator that lands in the activation
    window [[150, 170)] switches TNI on with at most 9 links, and one that
    lands in the disconnect window [[290, 310)] leaves at least 1 link: the
    ramps reach neither 10 on the way up nor 0 on the way down. *)
Theorem link_ramps_stop_short (s : Sim.TNISimulator) (dt rnd1 rnd2 : R) :
  Sim.is_running s = true ->
  let t := Sim.time_s s + dt * Sim.current_speed_multiplier s in
  let s' := Sim._update_simulation_state dt rnd1 rnd2 s in
  (150 <= t < 170 ->
     Sim.is_tni_active s' = true /\ (0 <= Sim.active_links s' <= 9)%Z) /\
  (290 <= t < 310 -> (1 <= Sim.active_links s' <= 10)%Z).
Proof.
  intros Hrun. cbv zeta.
  destruct (update_running dt rnd1 rnd2 s Hrun)
    as (_ & _ & _ & _ & _ & _ & _ & El & Ei & _).
  set (t := Sim.time_s s + dt * Sim.current_speed_multiplier s) in *.
  rewrite El, Ei.
  destruct (dispatch_cases t rnd1 rnd2 s)
    as [(B & ->) | [(B & ->) | [(B & ->) | [(B & ->) | (B & ->)]]]];
    cbn [Sim.pv_links Sim.pv_tni_active]; (split; intros W; try lra).
  - destruct (int_of_nonneg_below ((t - 150) * 0.5) 10); [lra | lra | ].
    split; [reflexivity | lia].
  - destruct (int_of_nonneg_below ((t - 290) * 0.5) 10); [lra | lra | ]. lia.
Qed.

Lemma link_ramps_stop_short_witness :
  let s' := Sim._update_simulation_state 169 0 0 Sim.started in
  Sim.is_tni_active s' = true /\ (0 <= Sim.active_links s' <= 9)%Z.
Proof.
  cbv zeta.
  destruct (link_ramps_stop_short Sim.started 169 0 0) as (H & _); [reflexivity | ].
  apply H. cbn. lra.
Defined.

(** X24: an update with a non-negative [dt] never takes a reachable state
    to an earlier phase of the sequence PRE-LAUNCH, ASCENT, TNI ACTIVATION,
    ORBITAL INSERTION, TNI DISCONNECT, NOMINAL ORBIT. *)
Theorem phase_never_goes_back (s : Sim.TNISimulator) (dt rnd1 rnd2 : R) :
  Sim.reachable s -> 0 <= dt ->
  (phase_rank (Sim.current_phase s) <=
   phase_rank (Sim.current_phase (Sim._update_simulation_state dt rnd1 rnd2 s)))%nat.
Proof.
  intros Hreach Hdt.
  destruct (Sim.is_running s) eqn:Hrun.
  2:{ rewrite update_paused by assumption. lia. }
  destruct (update_running dt rnd1 rnd2 s Hrun) as (_ & _ & Ep & _).
  destruct (speed_setting_invariant s Hreach) as (_ & _ & Hm).
  set (t' := Sim.time_s s + dt * Sim.current_speed_multiplier s) in *.
  assert (Hle : Sim.time_s s <= t') by (unfold t'; nra).
  rewrite Ep.
  destruct (reachable_fresh_or_settled s Hreach) as [(Fp & _) | (r1 & r2 & (Sp & _))].
  - rewrite Fp. cbn. lia.
  - rewrite Sp.
    destruct (dispatch_cases (Sim.time_s s) r1 r2 s)
      as [(B & ->) | [(B & ->) | [(B & ->) | [(B & ->) | (B & ->)]]]];
    destruct (dispatch_cases t' rnd1 rnd2 s)
      as [(B' & ->) | [(B' & ->) | [(B' & ->) | [(B' & ->) | (B' & ->)]]]];
    try lra; cbn; lia.
Qed.

Lemma phase_never_goes_back_witness :
  (phase_rank (Sim.current_phase Sim.started) <=
   phase_rank (Sim.current_phase (Sim._update_simulation_state 10 0 0 Sim.started)))%nat.
Proof.
  apply (phase_never_goes_back Sim.started 10 0 0); [ | lra ].
  apply (Sim.reach_step Sim.__init__); [apply Sim.reach_init | apply Sim.step_toggle].
Defined.

(** X25: NOMINAL ORBIT is terminal: on a reachable state in that phase an
    update with a non-negative [dt], even after the simulator was started
    again, stays in the phase, ends paused and leaves altitude, errors,
    delta-v saved, link count and the TNI flag as they were. *)
Theorem nominal_orbit_is_terminal (s : Sim.TNISimulator) (dt rnd1 rnd2 : R) :
  Sim.reachable s -> 0 <= dt ->
  Sim.current_phase s = Sim.NOMINAL_ORBIT ->
  let s' := Sim._update_simulation_state dt rnd1 rnd2 s in
  Sim.current_phase s' = Sim.NOMINAL_ORBIT /\
  (Sim.is_running s = true -> Sim.is_running s' = false) /\
  Sim.altitude_km s' = Sim.altitude_km s /\
  Sim.position_error_m s' = Sim.position_error_m s /\
  Sim.velocity_error_mps s' = Sim.velocity_error_mps s /\
  Sim.dv_saved_mps s' = Sim.dv_saved_mps s /\
  Sim.active_links s' = Sim.active_links s /\
  Sim.is_tni_active s' = Sim.is_tni_active s.
Proof.
  intros Hreach Hdt Hph. cbv zeta.
  destruct (Sim.is_running s) eqn:Hrun.
  2:{ rewrite update_paused by assumption.
      repeat split; try assumption. discriminate. }
  destruct (update_running dt rnd1 rnd2 s Hrun)
    as (_ & Er & Ep & Ea & Epos & Ev & Ed & El & Ei & _).
  destruct (speed_setting_invariant s Hreach) as (_ & _ & Hm).
  set (t' := Sim.time_s s + dt * Sim.current_speed_multiplier s) in *.
  assert (Hle : Sim.time_s s <= t') by (unfold t'; nra).
  assert (Ht : 310 <= Sim.time_s s).
  { destruct (reachable_fresh_or_settled s Hreach) as [(Fp & _) | (r1 & r2 & (Sp & _))].
    - rewrite Fp in Hph. discriminate.
    - rewrite Hph in Sp.
      destruct (dispatch_cases (Sim.time_s s) r1 r2 s)
        as [(B & E) | [(B & E) | [(B & E) | [(B & E) | (B & E)]]]];
        rewrite E in Sp; cbn in Sp; try discriminate. lra. }
  rewrite Er, Ep, Ea, Epos, Ev, Ed, El, Ei.
  destruct (dispatch_cases t' rnd1 rnd2 s)
    as [(B' & ->) | [(B' & ->) | [(B' & ->) | [(B' & ->) | (B' & ->)]]]];
    try lra.
  cbn. repeat split.
Qed.

Lemma nominal_orbit_is_terminal_witness :
  let s := Sim.set_running true (Sim._update_simulation_state 400 0 0 Sim.started) in
  let s' := Sim._update_simulation_state 5 0 0 s in
  Sim.current_phase s' = Sim.NOMINAL_ORBIT /\
  (Sim.is_running s = true -> Sim.is_running s' = false).
Proof.
  cbv zeta.
  assert (Hreach0 : Sim.reachable Sim.started).
  { apply (Sim.reach_step Sim.__init__); [apply Sim.reach_init | apply Sim.step_toggle]. }
  assert (Hrun : Sim.is_running Sim.started = true) by reflexivity.
  destruct (update_running 400 0 0 Sim.started Hrun) as (_ & Er & Ep & _).
  set (s1 := Sim._update_simulation_state 400 0 0 Sim.started) in *.
  assert (Hph : Sim.current_phase s1 = Sim.NOMINAL_ORBIT /\ Sim.is_running s1 = false).
  { rewrite Ep, Er.
    destruct (dispatch_cases (Sim.time_s Sim.started +
                              400 * Sim.current_speed_multiplier Sim.started) 0 0 Sim.started)
      as [(B & ->) | [(B & ->) | [(B & ->) | [(B & ->) | (B & ->)]]]];
      cbn in B; try lra. split; reflexivity. }
  destruct Hph as [Hph Hpaused].
  assert (Hreach : Sim.reachable (Sim.set_running true s1)).
  { apply (Sim.reach_step s1).
    - apply (Sim.reach_step Sim.started); [exact Hreach0 | apply Sim.step_update; lra].
    - replace true with (negb (Sim.is_running s1)) by (rewrite Hpaused; reflexivity).
      apply Sim.step_toggle. }
  destruct (nominal_orbit_is_terminal (Sim.set_running true s1) 5 0 0 Hreach)
    as (H1 & H2 & _); [lra | exact Hph | ].
  split; [exact H1 | exact H2].
Defined.

(** X26: on every reachable state there are 18 satellites, with ids 0 to 17
    in order, each with angular rate 0.0011 rad/s and at 6921 km from the
    centre of the Earth. *)
Theorem constellation_invariant (s : Sim.TNISimulator) :
  Sim.reachable s ->
  List.length (Sim.satellites s) = 18%nat /\
  map Sim.sat_id (Sim.satellites s) = seq 0 18 /\
  Forall (fun sat =>
            Sim.sat_omega sat = 0.0011 /\
            Sim.sat_x sat * Sim.sat_x sat + Sim.sat_y sat * Sim.sat_y sat = 6921 * 6921)
         (Sim.satellites s).
Proof.
  intros Hreach.
  enough (H : map Sim.sat_id (Sim.satellites s) = seq 0 18 /\
              Forall (fun sat =>
                        Sim.sat_omega sat = 0.0011 /\
                        Sim.sat_x sat = 6921 * cos (Sim.sat_angle sat) /\
                        Sim.sat_y sat = 6921 * sin (Sim.sat_angle sat))
                     (Sim.satellites s)).
  { destruct H as [Hid Hall]. split; [ | split; [exact Hid | ] ].
    - rewrite <- (length_map Sim.sat_id), Hid. apply length_seq.
    - apply Forall_impl with (2 := Hall). intros sat (Ho & Hx & Hy).
      split; [exact Ho | ]. rewrite Hx, Hy.
      pose proof (sin2_cos2 (Sim.sat_angle sat)) as T. unfold Rsqr in T. nra. }
  revert s Hreach. apply reachable_invariant.
  - unfold Sim.__init__, Sim._init_satellites. cbn [Sim.satellites]. split.
    + rewrite map_map. cbn [Sim.sat_id]. apply map_id.
    + apply Forall_map. apply Forall_forall. intros i _.
      cbn [Sim.sat_omega Sim.sat_x Sim.sat_y Sim.sat_angle].
      unfold Sim.EARTH_RADIUS_KM, Sim.STARLINK_ALT_KM.
      split; [reflexivity | ]. split; f_equal; lra.
  - intros s b H. exact H.
  - intros s direction H.
    destruct (handle_speed_change_cases direction s) as [(_ & ->) | (_ & ->)]; exact H.
  - intros s dt rnd1 rnd2 _ (Hid & Hall) Hrun _ _ _.
    unfold Sim._update_simulation_state. rewrite Hrun. cbn [negb Sim.satellites].
    split.
    + rewrite map_map. cbn [Sim.sat_id]. exact Hid.
    + apply Forall_map. apply Forall_impl with (2 := Hall). intros sat (Ho & _).
      cbn [Sim.sat_omega Sim.sat_x Sim.sat_y Sim.sat_angle].
      unfold Sim.EARTH_RADIUS_KM, Sim.STARLINK_ALT_KM.
      split; [exact Ho | ]. split; f_equal; lra.
Qed.

Lemma constellation_invariant_witness :
  List.length (Sim.satellites Sim.started) = 18%nat /\
  map Sim.sat_id (Sim.satellites Sim.started) = seq 0 18 /\
  Forall (fun sat =>
            Sim.sat_omega sat = 0.0011 /\
            Sim.sat_x sat * Sim.sat_x sat + Sim.sat_y sat * Sim.sat_y sat = 6921 * 6921)
         (Sim.satellites Sim.started).
Proof.
  apply (constellation_invariant Sim.started).
  apply (Sim.reach_step Sim.__init__); [apply Sim.reach_init | apply Sim.step_toggle].
Defined.

(** X27: on every reachable state the vehicle record carries the current
    altitude and the angle [0.02 * time_s]; before the first update it sits
    at the origin, and afterwards at distance [6371 + altitude_km] from the
    centre of the Earth. *)
Theorem vehicle_tracks_state (s : Sim.TNISimulator) :
  Sim.reachable s ->
  Sim.veh_alt (Sim.vehicle s) = Sim.altitude_km s /\
  Sim.veh_angle (Sim.vehicle s) = Sim.time_s s * 0.02 /\
  (Sim.current_phase s = Sim.PRE_LAUNCH ->
     Sim.veh_x (Sim.vehicle s) = 0 /\ Sim.veh_y (Sim.vehicle s) = 0) /\
  (Sim.current_phase s <> Sim.PRE_LAUNCH ->
     Sim.veh_x (Sim.vehicle s) * Sim.veh_x (Sim.vehicle s) +
     Sim.veh_y (Sim.vehicle s) * Sim.veh_y (Sim.vehicle s) =
     (6371 + Sim.altitude_km s) * (6371 + Sim.altitude_km s)).
Proof.
  revert s. apply reachable_invariant.
  - cbn. repeat split; try lra. intros N. now elim N.
  - intros s b H. exact H.
  - intros s direction H.
    destruct (handle_speed_change_cases direction s) as [(_ & ->) | (_ & ->)]; exact H.
  - intros s dt rnd1 rnd2 _ _ Hrun _ _ _.
    destruct (update_running dt rnd1 rnd2 s Hrun) as (Et & _ & Ep & Ea & _).
    rewrite Et, Ep, Ea.
    unfold Sim._update_simulation_state. rewrite Hrun. cbn [negb Sim.vehicle
      Sim.veh_alt Sim.veh_angle Sim.veh_x Sim.veh_y].
    split; [reflexivity | ]. split; [reflexivity | ]. split.
    + intros E.
      destruct (dispatch_cases (Sim.time_s s + dt * Sim.current_speed_multiplier s)
                  rnd1 rnd2 s)
        as [(B & W) | [(B & W) | [(B & W) | [(B & W) | (B & W)]]]];
        rewrite W in E; discriminate E.
    + intros _. unfold Sim.EARTH_RADIUS_KM.
      pose proof (sin2_cos2 ((Sim.time_s s + dt * Sim.current_speed_multiplier s) * 0.02)) as T.
      unfold Rsqr in T.
      set (r := 6371 + Sim.pv_altitude _) in *.
      set (c := cos _) in *. set (sn := sin _) in *.
      replace (r * c * (r * c) + r * sn * (r * sn)) with (r * r * (sn * sn + c * c)) by ring.
      rewrite T. ring.
Qed.

Lemma vehicle_tracks_state_witness :
  Sim.veh_alt (Sim.vehicle Sim.started) = Sim.altitude_km Sim.started /\
  Sim.veh_angle (Sim.vehicle Sim.started) = Sim.time_s Sim.started * 0.02.
Proof.
  destruct (vehicle_tracks_state Sim.started) as (H1 & H2 & _).
  - apply (Sim.reach_step Sim.__init__); [apply Sim.reach_init | apply Sim.step_toggle].
  - split; [exact H1 | exact H2].
Defined.

(** ** Presentation demo *)

Lemma uniform_range (a b r : R) :
  a <= b -> 0 <= r < 1 -> a <= Pres.uniform a b r <= b.
Proof. intros Hab Hr. unfold Pres.uniform. nra. Qed.

Lemma readings_bounds (t : R) (d : Pres.Draws) :
  Pres.unit_draws d ->
  exists sp tp sv tv,
    Pres.readings t d = (sp, tp, sv, tv) /\
    2.8 <= sp <= 3.2 /\ 0.025 <= tp <= 3.2 /\
    0.09 <= sv <= 0.11 /\ 0.0008 <= tv <= 0.11 /\
    (10 <= t -> tp <= 0.035 /\ tv <= 0.0012).
Proof.
  intros (H1 & H2 & H3 & H4). unfold Pres.readings.
  pose proof (uniform_range (-0.2) 0.2 _ ltac:(lra) H1) as U1.
  pose proof (uniform_range (-0.2) 0.2 _ ltac:(lra) H2) as U2.
  pose proof (uniform_range (-0.01) 0.01 _ ltac:(lra) H3) as U3.
  pose proof (uniform_range (-0.01) 0.01 _ ltac:(lra) H4) as U4.
  pose proof (uniform_range (-0.005) 0.005 _ ltac:(lra) H2) as U5.
  pose proof (uniform_range (-0.0002) 0.0002 _ ltac:(lra) H4) as U6.
  destruct (Rlt_dec t 5.0); [ | destruct (Rlt_dec t 10.0); [ | destruct (Rlt_dec t 25.0) ] ].
  - do 4 eexists. split; [reflexivity | ]. repeat split; lra.
  - destruct (exp_le_1 (- (t - 5.0) / 2)) as [P Q]; [lra | ].
    do 4 eexists. split; [reflexivity | ]. unfold Py.max.
    destruct (Rlt_dec 0.03 (3.0 * exp (- (t - 5.0) / 2)));
      destruct (Rlt_dec 0.001 (0.1 * exp (- (t - 5.0) / 2)));
      repeat split; lra.
  - do 4 eexists. split; [reflexivity | ]. repeat split; lra.
  - do 4 eexists. split; [reflexivity | ]. repeat split; lra.
Qed.

Lemma pop0_snoc (l : list R) (v : R) :
  l <> [] -> exists l', Pres.pop0 (l ++ [v]) = Some (l' ++ [v]) /\
                        List.length l = S (List.length l').
Proof.
  destruct l as [ | a l]; [intros N; now elim N | intros _].
  exists l. split; reflexivity.
Qed.

(** One update on histories of a common length [k <= 300]. *)
Lemma update_histories (dt : R) (d : Pres.Draws) (s : Pres.TNIPresentationSim) (k : nat) :
  (k <= 300)%nat ->
  List.length (Pres.pos_history_std s) = k ->
  List.length (Pres.pos_history_tni s) = k ->
  List.length (Pres.vel_history_std s) = k ->
  List.length (Pres.vel_history_tni s) = k ->
  exists s' sp tp sv tv hps hpt hvs hvt,
    Pres.update dt d s = Some s' /\
    Pres.readings (Pres.time s + dt) d = (sp, tp, sv, tv) /\
    Pres.time s' = Pres.time s + dt /\
    Pres.running s' = Pres.running s /\
    Pres.data s' =
      Pres.mkComparisonData (Pres.cd_time (Pres.data s)) sp tp sv tv
        (Py.min 45.0 ((sp - tp) / 3.0 * 45.0)) /\
    Pres.pos_history_std s' = hps ++ [sp] /\
    Pres.pos_history_tni s' = hpt ++ [tp] /\
    Pres.vel_history_std s' = hvs ++ [sv * 1000] /\
    Pres.vel_history_tni s' = hvt ++ [tv * 1000] /\
    List.length hps = Nat.min k 299 /\ List.length hpt = Nat.min k 299 /\
    List.length hvs = Nat.min k 299 /\ List.length hvt = Nat.min k 299.
Proof.
  intros Hk L1 L2 L3 L4. unfold Pres.update.
  destruct (Pres.readings (Pres.time s + dt) d) as [[[sp tp] sv] tv].
  rewrite length_app, L1. cbn [List.length]. unfold Pres.max_history.
  destruct (300 <? k + 1)%nat eqn:E.
  - apply Nat.ltb_lt in E. assert (Hfull : k = 300%nat) by lia.
    destruct (pop0_snoc (Pres.pos_history_std s) sp) as (l1 & -> & N1);
      [intros Z; rewrite Z in L1; cbn in L1; lia | ].
    destruct (pop0_snoc (Pres.pos_history_tni s) tp) as (l2 & -> & N2);
      [intros Z; rewrite Z in L2; cbn in L2; lia | ].
    destruct (pop0_snoc (Pres.vel_history_std s) (sv * 1000)) as (l3 & -> & N3);
      [intros Z; rewrite Z in L3; cbn in L3; lia | ].
    destruct (pop0_snoc (Pres.vel_history_tni s) (tv * 1000)) as (l4 & -> & N4);
      [intros Z; rewrite Z in L4; cbn in L4; lia | ].
    exists (Pres.mkPres (Pres.time s + dt) (Pres.running s)
              (Pres.mkComparisonData (Pres.cd_time (Pres.data s)) sp tp sv tv
                 (Py.min 45.0 ((sp - tp) / 3.0 * 45.0)))
              (l1 ++ [sp]) (l2 ++ [tp]) (l3 ++ [sv * 1000]) (l4 ++ [tv * 1000])).
    exists sp, tp, sv, tv, l1, l2, l3, l4. cbn.
    repeat split; lia.
  - apply Nat.ltb_ge in E.
    eexists. exists sp, tp, sv, tv.
    exists (Pres.pos_history_std s), (Pres.pos_history_tni s),
           (Pres.vel_history_std s), (Pres.vel_history_tni s).
    cbn. repeat split; lia.
Qed.

(** The state a run of updates keeps: equal history lengths, capped at 300,
    and the newest readings at the end of the histories. *)
Lemma run_updates_histories (steps : list (R * Pres.Draws))
    (s : Pres.TNIPresentationSim) (k : nat) :
  (k <= 300)%nat ->
  List.length (Pres.pos_history_std s) = k ->
  List.length (Pres.pos_history_tni s) = k ->
  List.length (Pres.vel_history_std s) = k ->
  List.length (Pres.vel_history_tni s) = k ->
  exists s',
    Pres.run_updates s steps = Some s' /\
    List.length (Pres.pos_history_std s') = Nat.min (k + List.length steps) 300 /\
    List.length (Pres.pos_history_tni s') = Nat.min (k + List.length steps) 300 /\
    List.length (Pres.vel_history_std s') = Nat.min (k + List.length steps) 300 /\
    List.length (Pres.vel_history_tni s') = Nat.min (k + List.length steps) 300 /\
    Pres.time s' = Pres.time s + fold_right (fun st acc => fst st + acc) 0 steps.
Proof.
  revert s k. induction steps as [ | [dt d] rest IH]; intros s k Hk L1 L2 L3 L4.
  - exists s. cbn. rewrite Nat.add_0_r, Nat.min_l by assumption.
    repeat split; try assumption. lra.
  - destruct (update_histories dt d s k Hk L1 L2 L3 L4)
      as (s1 & sp & tp & sv & tv & hps & hpt & hvs & hvt & E & _ & Et & _ & _ &
          E1 & E2 & E3 & E4 & N1 & N2 & N3 & N4).
    cbn [Pres.run_updates]. rewrite E.
    destruct (IH s1 (Nat.min (k + 1) 300)) as (s' & R & M1 & M2 & M3 & M4 & T).
    + lia.
    + rewrite E1, length_app, N1. cbn. lia.
    + rewrite E2, length_app, N2. cbn. lia.
    + rewrite E3, length_app, N3. cbn. lia.
    + rewrite E4, length_app, N4. cbn. lia.
    + exists s'. split; [exact R | ]. cbn [List.length fold_right fst].
      rewrite M1, M2, M3, M4, T, Et. repeat split; try lia. lra.
Qed.

(** X28: a run of updates from the constructed demo never raises; after [n]
    updates each of the four histories holds [min n 300] values, and the
    clock is the sum of the [dt]s. *)
Theorem histories_are_sliding_windows (steps : list (R * Pres.Draws)) :
  exists s,
    Pres.run_updates Pres.__init__ steps = Some s /\
    List.length (Pres.pos_history_std s) = Nat.min (List.length steps) 300 /\
    List.length (Pres.pos_history_tni s) = Nat.min (List.length steps) 300 /\
    List.length (Pres.vel_history_std s) = Nat.min (List.length steps) 300 /\
    List.length (Pres.vel_history_tni s) = Nat.min (List.length steps) 300 /\
    Pres.time s = fold_right (fun st acc => fst st + acc) 0 steps.
Proof.
  destruct (run_updates_histories steps Pres.__init__ 0)
    as (s & R & M1 & M2 & M3 & M4 & T); try reflexivity; try lia.
  exists s. split; [exact R | ]. cbn in M1, M2, M3, M4, T.
  repeat split; try assumption. rewrite T. lra.
Qed.

Lemma update_data (dt : R) (d : Pres.Draws) (s s' : Pres.TNIPresentationSim) :
  Pres.update dt d s = Some s' ->
  exists sp tp sv tv,
    Pres.readings (Pres.time s + dt) d = (sp, tp, sv, tv) /\
    Pres.time s' = Pres.time s + dt /\
    Pres.data s' =
      Pres.mkComparisonData (Pres.cd_time (Pres.data s)) sp tp sv tv
        (Py.min 45.0 ((sp - tp) / 3.0 * 45.0)).
Proof.
  unfold Pres.update.
  destruct (Pres.readings (Pres.time s + dt) d) as [[[sp tp] sv] tv].
  intros H. exists sp, tp, sv, tv. split; [reflexivity | ].
  destruct (Pres.max_history <? _)%nat.
  - destruct (Pres.pop0 _); [ | discriminate H ].
    destruct (Pres.pop0 _); [ | discriminate H ].
    destruct (Pres.pop0 _); [ | discriminate H ].
    destruct (Pres.pop0 _); [ | discriminate H ].
    injection H as <-. split; reflexivity.
  - injection H as <-. split; reflexivity.
Qed.

(** X29: in every state of a run of updates from the constructed demo,
    with draws in [[0, 1)], the standard errors stay within their jitter
    ([2.8..3.2] m, [0.09..0.11] m/s), the TNI errors stay strictly positive
    (at least 0.025 m and 0.0008 m/s), and the delta-v saved never exceeds
    45 m/s; once the clock has passed 10 s the TNI position error is at
    most 0.035 m and the delta-v saved at least 41.475 m/s. *)
Theorem demo_readings_bounds (steps : list (R * Pres.Draws)) (s : Pres.TNIPresentationSim) :
  Forall (fun st => Pres.unit_draws (snd st)) steps ->
  Pres.run_updates Pres.__init__ steps = Some s ->
  2.8 <= Pres.standard_pos_error (Pres.data s) <= 3.2 /\
  0.025 <= Pres.tni_pos_error (Pres.data s) <= 3.2 /\
  0.09 <= Pres.standard_vel_error (Pres.data s) <= 0.11 /\
  0.0008 <= Pres.tni_vel_error (Pres.data s) <= 0.11 /\
  Pres.dv_saved (Pres.data s) <= 45 /\
  (10 <= Pres.time s ->
     Pres.tni_pos_error (Pres.data s) <= 0.035 /\
     41.475 <= Pres.dv_saved (Pres.data s)).
Proof.
  set (Q := fun s : Pres.TNIPresentationSim =>
    2.8 <= Pres.standard_pos_error (Pres.data s) <= 3.2 /\
    0.025 <= Pres.tni_pos_error (Pres.data s) <= 3.2 /\
    0.09 <= Pres.standard_vel_error (Pres.data s) <= 0.11 /\
    0.0008 <= Pres.tni_vel_error (Pres.data s) <= 0.11 /\
    Pres.dv_saved (Pres.data s) <= 45 /\
    (10 <= Pres.time s ->
       Pres.tni_pos_error (Pres.data s) <= 0.035 /\
       41.475 <= Pres.dv_saved (Pres.data s))).
  assert (Hinit : Q Pres.__init__) by (unfold Q; cbn; repeat split; lra).
  intros Hall. change (Pres.run_updates Pres.__init__ steps = Some s -> Q s).
  generalize Pres.__init__ Hinit. clear Hinit.
  induction Hall as [ | [dt d] rest Hd _ IH]; intros s0 H0 Hrun.
  - cbn in Hrun. injection Hrun as <-. exact H0.
  - cbn [Pres.run_updates] in Hrun.
    destruct (Pres.update dt d s0) as [s1 | ] eqn:E; [ | discriminate Hrun ].
    apply (IH s1); [ | exact Hrun ]. clear IH Hrun H0.
    destruct (update_data dt d s0 s1 E) as (sp & tp & sv & tv & Er & Et & Ed).
    destruct (readings_bounds (Pres.time s0 + dt) d Hd)
      as (sp' & tp' & sv' & tv' & Er' & Bsp & Btp & Bsv & Btv & Blate).
    rewrite Er in Er'. injection Er' as <- <- <- <-.
    unfold Q. rewrite Ed, Et.
    cbn [Pres.standard_pos_error Pres.tni_pos_error Pres.standard_vel_error
         Pres.tni_vel_error Pres.dv_saved].
    unfold Py.min.
    destruct (Rlt_dec ((sp - tp) / 3.0 * 45.0) 45.0);
      repeat split; try lra; intros L; destruct (Blate L); lra.
Qed.

Lemma demo_readings_bounds_witness :
  exists s,
    Pres.run_updates Pres.__init__ [(12, Pres.mkDraws 0 0 0 0)] = Some s /\
    2.8 <= Pres.standard_pos_error (Pres.data s) <= 3.2 /\
    0.025 <= Pres.tni_pos_error (Pres.data s) <= 3.2 /\
    0.09 <= Pres.standard_vel_error (Pres.data s) <= 0.11 /\
    0.0008 <= Pres.tni_vel_error (Pres.data s) <= 0.11 /\
    Pres.dv_saved (Pres.data s) <= 45 /\
    (10 <= Pres.time s ->
       Pres.tni_pos_error (Pres.data s) <= 0.035 /\
       41.475 <= Pres.dv_saved (Pres.data s)).
Proof.
  destruct (run_updates_histories [(12, Pres.mkDraws 0 0 0 0)] Pres.__init__ 0)
    as (s & R & _); try reflexivity; try lia.
  exists s. split; [exact R | ].
  apply (demo_readings_bounds [(12, Pres.mkDraws 0 0 0 0)] s); [ | exact R ].
  repeat constructor; cbn; lra.
Defined.
